(** * bSpheres (Modern): a shallow embedding of the add-on's operators and panel

    The add-on ([__init__.py]) registers two operators and one panel:
    - [OBJECT_OT_ApplyBSphereModifiers]  (the Finalizer),
    - [MESH_OT_PrimitiveBSphereAdd]      (the Base Creator),
    - [VIEW3D_PT_BSpheresPanel]          (the Contextual Panel).

    Python code is embedded in a state-and-exception monad: the state is
    threaded through a raised exception, as Python does.  The host (Blender)
    is a black box: what its algorithms compute and when its operators
    report a runtime failure is left to an arbitrary [Host]. *)

From Stdlib Require Import QArith.
From stdpp Require Import base option list strings.

Open Scope string_scope.
Open Scope list_scope.

(** ** The host's data model, as far as the add-on reads or writes it *)

(** A mesh vertex: local coordinate, selection flag, and the two skin flags
    ([use_root], [use_loose]) of the vertex's skin data. *)
Record MeshVertex := {
  co : Q * Q * Q;
  select : bool;
  use_root : bool;
  use_loose : bool
}.

Record Mesh := {
  vertices : list MeshVertex;
  edges : list (nat * nat);
  polygons : list (list nat);
  remesh_voxel_size : Q
}.

(** Modifier settings by modifier type; only the three types the add-on
    creates carry the attributes it touches. *)
Inductive ModifierSettings :=
| MirrorModifier (use_axis : bool * bool * bool)
| SkinModifier (use_x_symmetry use_y_symmetry use_z_symmetry : bool)
| SubsurfModifier (levels render_levels : Z)
| OtherModifier.

Record Modifier := {
  name : string;
  settings : ModifierSettings
}.

Inductive ModifierType := MIRROR | SKIN | SUBSURF.

(** Object data blocks.  The add-on tells mesh objects from the others
    ([obj.type == 'MESH']); only a mesh has a [remesh_voxel_size]. *)
Inductive ID := MeshID (m : Mesh) | CurveID | CameraID | LightID.

(** [data] is [None] for an empty.  An object holds the content of its
    data-block: the scenes modelled are those in which no two objects use one
    and the same data-block. *)
Record Object := {
  data : option ID;
  modifiers : list Modifier
}.

Inductive ObjectType := MESH | CURVE | CAMERA | LIGHT | EMPTY.

(** [obj.type]: fixed by the kind of data the object carries. *)
Definition type (o : Object) : ObjectType :=
  match data o with
  | Some (MeshID _) => MESH
  | Some CurveID => CURVE
  | Some CameraID => CAMERA
  | Some LightID => LIGHT
  | None => EMPTY
  end.

(** [context.mode] *)
Inductive Mode := OBJECT | EDIT_MESH | EDIT_CURVE | SCULPT | POSE.

(** [context.space_data]: the operators and the panel are run from the user
    interface, so there is a current space; only a 3D viewport has
    [shading.show_xray]. *)
Inductive Space :=
| SpaceView3D (show_xray : bool)
| SpaceProperties
| SpaceTextEditor
| SpaceConsole.

Inductive SpaceType := VIEW_3D | PROPERTIES | TEXT_EDITOR | CONSOLE.

Definition space_type (sp : Space) : SpaceType :=
  match sp with
  | SpaceView3D _ => VIEW_3D
  | SpaceProperties => PROPERTIES
  | SpaceTextEditor => TEXT_EDITOR
  | SpaceConsole => CONSOLE
  end.

(** The scene's objects, the index of the active one, the interaction mode
    and the current UI space. *)
Record Context := {
  objects : list Object;
  active : option nat;
  mode : Mode;
  space_data : Space
}.

#[global] Instance Mode_eq_dec : EqDecision Mode.
Proof. solve_decision. Defined.
#[global] Instance ObjectType_eq_dec : EqDecision ObjectType.
Proof. solve_decision. Defined.
#[global] Instance SpaceType_eq_dec : EqDecision SpaceType.
Proof. solve_decision. Defined.

(** [context.object] and [context.active_object] *)
Definition object (c : Context) : option Object :=
  match active c with
  | Some i => objects c !! i
  | None => None
  end.

Definition set_objects (os : list Object) (c : Context) : Context :=
  {| objects := os; active := active c; mode := mode c; space_data := space_data c |}.

Definition set_mode (md : Mode) (c : Context) : Context :=
  {| objects := objects c; active := active c; mode := md; space_data := space_data c |}.

Definition set_space_data (sp : Space) (c : Context) : Context :=
  {| objects := objects c; active := active c; mode := mode c; space_data := sp |}.

(** In-place update of the object behind handle [i]. *)
Definition update_object (i : nat) (f : Object -> Object) (c : Context) : Context :=
  set_objects (alter f i (objects c)) c.

Definition set_data (d : option ID) (o : Object) : Object :=
  {| data := d; modifiers := modifiers o |}.

Definition set_modifiers (l : list Modifier) (o : Object) : Object :=
  {| data := data o; modifiers := l |}.

Definition set_remesh_voxel_size (v : Q) (m : Mesh) : Mesh :=
  {| vertices := vertices m; edges := edges m; polygons := polygons m;
     remesh_voxel_size := v |}.

(** [obj.modifiers.get(n)]: the first modifier of that name, if any. *)
Definition modifiers_get (n : string) (l : list Modifier) : option Modifier :=
  find (fun md => bool_decide (name md = n)) l.

(** Removal of the first modifier named [n] from a stack. *)
Fixpoint modifiers_remove (n : string) (l : list Modifier) : list Modifier :=
  match l with
  | [] => []
  | md :: l' => if bool_decide (name md = n) then l' else md :: modifiers_remove n l'
  end.

(** ** Python's control flow: state and exceptions *)

Inductive Exception :=
| RuntimeError (msg : string)
| AttributeError (msg : string).

(** A computation over a state [S]: it returns a value or raises, and the
    state reached is kept either way. *)
Definition M (S A : Type) : Type := S -> (Exception + A) * S.

Definition ret {S A} (a : A) : M S A := fun s => (inr a, s).

Definition bind {S A B} (m : M S A) (k : A -> M S B) : M S B :=
  fun s =>
    match m s with
    | (inr a, s') => k a s'
    | (inl e, s') => (inl e, s')
    end.

Definition raise {S A} (e : Exception) : M S A := fun s => (inl e, s).

Definition gets {S A} (f : S -> A) : M S A := fun s => (inr (f s), s).

Definition modify {S} (f : S -> S) : M S unit := fun s => (inr tt, f s).

#[global] Instance M_ret {S} : MRet (M S) := @ret S.
#[global] Instance M_bind {S} : MBind (M S) := fun A B k m => bind m k.

(** [try: body  except RuntimeError as e: handler(str(e))]; any other
    exception propagates. *)
Definition try_except_RuntimeError {S A} (body : M S A) (handler : string -> M S A) : M S A :=
  fun s =>
    match body s with
    | (inl (RuntimeError msg), s') => handler msg s'
    | r => r
    end.

(** [for x in l: body(x)] *)
Fixpoint for_each {S A} (l : list A) (body : A -> M S unit) : M S unit :=
  match l with
  | [] => ret tt
  | x :: l' => bind (body x) (fun _ => for_each l' body)
  end.

Definition result {S A} (r : (Exception + A) * S) : Exception + A := fst r.
Definition final {S A} (r : (Exception + A) * S) : S := snd r.

(** ** Operators: reports and the record of host calls *)

Inductive ReportType := INFO | WARNING | ERROR.

Inductive OperatorResult := FINISHED | CANCELLED.

(** The host operators ([bpy.ops.*]) the add-on calls. *)
Inductive HostCall :=
| modifier_apply (modifier : string)
| voxel_remesh
| mode_set_EDIT
| select_all_SELECT
| skin_root_mark.

(** One host call as it happened: which operator, the active object it saw,
    and the message of the runtime failure it reported, if it did. *)
Record Event := {
  ev_call : HostCall;
  ev_object : option Object;
  ev_raised : option string
}.

(** The panel's layout: every [UILayout] call adds one item under the
    sub-layout it is called on; sub-layouts and operator buttons are referred
    to afterwards through their handle. *)
Inductive Handle := self_layout | item_at (i : nat).

Inductive Item :=
| Column (align : bool)
| Row (align : bool)
| Box
| Separator
| Label (text icon : string)
| Operator (idname text icon : string) (properties : list (string * string))
| Property (modifier property : string) (index : option nat) (text : string) (toggle : bool).

Record Widget := {
  parent : Handle;
  item : Item;
  scale_y : Q
}.

(** What a run works on: the host context, the messages reported through
    [self.report], the host calls made so far, and the layout drawn. *)
Record State := {
  context : Context;
  reports : list (ReportType * string);
  calls : list Event;
  items : list Widget
}.

(** A run starts with no report, no call and an empty layout. *)
Definition init (c : Context) : State :=
  {| context := c; reports := []; calls := []; items := [] |}.

Definition set_context (c : Context) (s : State) : State :=
  {| context := c; reports := reports s; calls := calls s; items := items s |}.

Definition set_items (l : list Widget) (s : State) : State :=
  {| context := context s; reports := reports s; calls := calls s; items := l |}.

(** [self.report({ty}, msg)] *)
Definition report (ty : ReportType) (msg : string) : M State unit :=
  modify (fun s => {| context := context s; reports := reports s ++ [(ty, msg)];
                      calls := calls s; items := items s |}).

Definition record (op : HostCall) (raised : option string) (s : State) : State :=
  {| context := context s; reports := reports s;
     calls := calls s ++ [{| ev_call := op; ev_object := object (context s); ev_raised := raised |}];
     items := items s |}.

(** ** The host as a black box *)

(** What the add-object helper can do with new mesh data: add an object for
    it and make that object the active one, the context being left in mode
    [md]; or merge it into the mesh of the active object, which then has mesh
    [m] and stays the active one. *)
Inductive DataAdd :=
| NewObject (md : Mode)
| Joined (m : Mesh).

Class Host := {
  (** whether the host operator, called in this context, reports a runtime
      failure (and with which message) *)
  raises : HostCall -> Context -> option string;
  (** the mesh a modifier evaluates to when it is baked *)
  modifier_eval : Modifier -> Mesh -> Mesh;
  (** the mesh the voxel remesher produces *)
  voxel_remesh_eval : Mesh -> Mesh;
  (** defaults of freshly created data *)
  default_use_axis : bool * bool * bool;
  default_symmetry : bool * bool * bool;
  default_levels : Z * Z;
  default_remesh_voxel_size : Q;
  default_vertex_flags : bool * bool * bool;
  (** the name the host gives a new modifier when the wanted one is taken *)
  rename : list string -> string -> string;
  (** what the add-object helper does with new mesh data where the context
      is not in object-level mode *)
  data_add_eval : Context -> Mesh -> DataAdd
}.

(** Modelled from the spec: a host operator called through [bpy.ops].  It
    raises [RuntimeError] when the host reports a failure, and then leaves
    the context as it was; otherwise [effect] is applied.  [effect] fails
    (left) where the operator's own requirements on the context are unmet. *)
Definition bpy_ops `{Host} (op : HostCall) (effect : Context -> string + Context) : M State unit :=
  fun s =>
    match raises op (context s) with
    | Some msg => (inl (RuntimeError msg), record op (Some msg) s)
    | None =>
        match effect (context s) with
        | inl msg => (inl (RuntimeError msg), record op (Some msg) s)
        | inr c' => (inr tt, set_context c' (record op None s))
        end
    end.

(** A host operator that acts on the active object, in place. *)
Definition on_active_object (f : Object -> string + Object) (c : Context) : string + Context :=
  match active c, object c with
  | Some i, Some o =>
      match f o with
      | inr o' => inr (update_object i (fun _ => o') c)
      | inl msg => inl msg
      end
  | _, _ => inl "No active object"
  end.

(** Modelled from the spec: bake-named-stage-into-mesh.  The first modifier
    of that name is evaluated into the object's mesh and removed from the
    stack; an object without mesh data cannot have a modifier baked. *)
Definition bake_modifier `{Host} (n : string) (o : Object) : string + Object :=
  match data o, modifiers_get n (modifiers o) with
  | Some (MeshID m), Some md =>
      inr {| data := Some (MeshID (modifier_eval md m));
             modifiers := modifiers_remove n (modifiers o) |}
  | Some (MeshID _), None => inl "Modifier not found"
  | _, _ => inl "Modifier cannot be applied to this object"
  end.

(** Modelled from the spec: invoke voxel-remesh on the object's mesh. *)
Definition remesh_object `{Host} (o : Object) : string + Object :=
  match data o with
  | Some (MeshID m) => inr (set_data (Some (MeshID (voxel_remesh_eval m))) o)
  | _ => inl "Active object is not a mesh"
  end.

(** Modelled from the spec: enter point-editing mode on the active object. *)
Definition enter_edit_mode (c : Context) : string + Context :=
  match object c with
  | Some o =>
      match data o with
      | Some (MeshID _) => inr (set_mode EDIT_MESH c)
      | Some CurveID => inr (set_mode EDIT_CURVE c)
      | _ => inl "Object has no editable data"
      end
  | None => inl "No active object"
  end.

Definition set_select (b : bool) (v : MeshVertex) : MeshVertex :=
  {| co := co v; select := b; use_root := use_root v; use_loose := use_loose v |}.

Definition set_use_root (b : bool) (v : MeshVertex) : MeshVertex :=
  {| co := co v; select := select v; use_root := b; use_loose := use_loose v |}.

Definition set_vertices (vs : list MeshVertex) (m : Mesh) : Mesh :=
  {| vertices := vs; edges := edges m; polygons := polygons m;
     remesh_voxel_size := remesh_voxel_size m |}.

(** Modelled from the spec: select-all, on the mesh being edited. *)
Definition select_all (c : Context) : string + Context :=
  if bool_decide (mode c = EDIT_MESH) then
    on_active_object (fun o =>
      match data o with
      | Some (MeshID m) =>
          inr (set_data (Some (MeshID (set_vertices (map (set_select true) (vertices m)) m))) o)
      | _ => inl "Active object is not a mesh"
      end) c
  else inl "Not in point-editing mode".

(** Modelled from the spec: mark-root, on the selected points of the active
    object's mesh. *)
Definition mark_root (o : Object) : string + Object :=
  match data o with
  | Some (MeshID m) =>
      inr (set_data (Some (MeshID (set_vertices
             (map (fun v => if select v then set_use_root true v else v) (vertices m)) m))) o)
  | _ => inl "Active object is not a mesh"
  end.

(** Modelled from the spec: the generic add-object helper.  In object-level
    mode, for which the spec gives its contract, a new object is created from
    the mesh data, with an empty modifier stack, and made the active object.
    In any other mode the outcome is the host's ([data_add_eval]): the object
    is added in the same way, or the data is merged into the mesh of the
    active object, which keeps its stack and stays the active one. *)
Definition object_data_add `{Host} (mesh : Mesh) : M State unit :=
  modify (fun s =>
    let c := context s in
    let new_object (md : Mode) :=
      {| objects := objects c ++ [{| data := Some (MeshID mesh); modifiers := [] |}];
         active := Some (length (objects c));
         mode := md;
         space_data := space_data c |} in
    set_context
      (if bool_decide (mode c = OBJECT) then new_object (mode c)
       else
         match data_add_eval c mesh, active c, object c with
         | Joined m', Some i, Some {| data := Some (MeshID _); modifiers := mods |} =>
             update_object i (fun _ => {| data := Some (MeshID m'); modifiers := mods |}) c
         | Joined _, _, _ => new_object (mode c)
         | NewObject md, _, _ => new_object md
         end) s).

(** Modifier names are unique within an object: a taken name is replaced by
    one of the host's choosing. *)
Definition unique_name `{Host} (used : list string) (n : string) : string :=
  if bool_decide (n ∈ used) then rename used n else n.

Definition new_settings `{Host} (ty : ModifierType) : ModifierSettings :=
  match ty with
  | MIRROR => MirrorModifier default_use_axis
  | SKIN => SkinModifier default_symmetry.1.1 default_symmetry.1.2 default_symmetry.2
  | SUBSURF => SubsurfModifier default_levels.1 default_levels.2
  end.

(** ** Attribute access from Python *)

(** [obj = context.object] (also [context.active_object]): a handle on the
    active object, or [None]. *)
Definition context_object : M State (option nat) :=
  gets (fun s => match object (context s) with
                 | Some _ => active (context s)
                 | None => None
                 end).

(** [obj.type] *)
Definition obj_type (i : nat) : M State ObjectType :=
  fun s => match objects (context s) !! i with
           | Some o => (inr (type o), s)
           | None => (inl (AttributeError "dangling object"), s)
           end.

(** [obj.modifiers.get(n)] *)
Definition obj_modifiers_get (obj : option nat) (n : string) : M State (option Modifier) :=
  match obj with
  | None => raise (AttributeError "'NoneType' object has no attribute 'modifiers'")
  | Some i =>
      fun s => match objects (context s) !! i with
               | Some o => (inr (modifiers_get n (modifiers o)), s)
               | None => (inl (AttributeError "dangling object"), s)
               end
  end.

(** [context.space_data.type] *)
Definition context_space_data_type : M State SpaceType :=
  gets (fun s => space_type (space_data (context s))).

(** [context.space_data.shading.show_xray = b] *)
Definition set_show_xray (b : bool) : M State unit :=
  fun s =>
    match space_data (context s) with
    | SpaceView3D _ => (inr tt, set_context (set_space_data (SpaceView3D b) (context s)) s)
    | _ => (inl (AttributeError "space has no attribute 'shading'"), s)
    end.

(** [mesh = obj.data]: the data block is reached through its object. *)
Definition obj_data (obj : option nat) : M State (option nat) :=
  match obj with
  | None => raise (AttributeError "'NoneType' object has no attribute 'data'")
  | Some i =>
      fun s => match objects (context s) !! i with
               | Some o => (inr (match data o with Some _ => Some i | None => None end), s)
               | None => (inl (AttributeError "dangling object"), s)
               end
  end.

(** [mesh.remesh_voxel_size = v] *)
Definition mesh_set_remesh_voxel_size (mesh : option nat) (v : Q) : M State unit :=
  match mesh with
  | None => raise (AttributeError "'NoneType' object has no attribute 'remesh_voxel_size'")
  | Some i =>
      fun s => match objects (context s) !! i with
               | Some o =>
                   match data o with
                   | Some (MeshID m) =>
                       (inr tt,
                        set_context
                          (update_object i
                             (fun _ => set_data (Some (MeshID (set_remesh_voxel_size v m))) o)
                             (context s)) s)
                   | _ => (inl (AttributeError "attribute 'remesh_voxel_size' not found"), s)
                   end
               | None => (inl (AttributeError "dangling object"), s)
               end
  end.

(** ** OBJECT_OT_ApplyBSphereModifiers *)

Module OBJECT_OT_ApplyBSphereModifiers.

Definition bl_idname := "tcg.apply_bsphere_modifiers".

(** The declaration of a float property. *)
Record FloatProperty := {
  prop_name : string;
  default : Q;
  min : Q;
  max : Q;
  precision : nat
}.

Definition voxel_size : FloatProperty :=
  {| prop_name := "Voxel Size"; default := 0.05; min := 0.001; max := 1.0;
     precision := 3 |}.

Definition poll (c : Context) : bool :=
  bool_decide (is_Some (object c)) && bool_decide (mode c = OBJECT).

Definition modifiers_to_apply : list string := ["Mirror"; "Skin"; "Subdivision"].

(** The body of the [for mod_name in modifiers_to_apply] loop. *)
Definition apply_named `{Host} (obj : option nat) (mod_name : string) : M State unit :=
  md ← obj_modifiers_get obj mod_name;
  match md with
  | Some md =>
      try_except_RuntimeError
        (bpy_ops (modifier_apply (name md)) (on_active_object (bake_modifier (name md))))
        (fun _ => report WARNING ("Could not apply modifier: " +:+ name md))
  | None => ret tt
  end.

(** Lines 48-64: up to and including the loop. *)
Definition bake `{Host} : M State (option nat) :=
  obj ← context_object;
  ty ← context_space_data_type;
  (if bool_decide (ty = VIEW_3D) then set_show_xray false else ret tt);;
  for_each modifiers_to_apply (apply_named obj);;
  ret obj.

(** Lines 66-77: the remesh and the return. *)
Definition remesh `{Host} (self_voxel_size : Q) (obj : option nat) : M State OperatorResult :=
  mesh ← obj_data obj;
  mesh_set_remesh_voxel_size mesh self_voxel_size;;
  try_except_RuntimeError
    (bpy_ops voxel_remesh (on_active_object remesh_object);;
     report INFO "bSphere mesh applied and remeshed.")
    (fun e => report ERROR ("Remesh failed: " +:+ e));;
  ret FINISHED.

Definition execute `{Host} (self_voxel_size : Q) : M State OperatorResult :=
  obj ← bake;
  remesh self_voxel_size obj.

End OBJECT_OT_ApplyBSphereModifiers.

(** ** MESH_OT_PrimitiveBSphereAdd *)

Module MESH_OT_PrimitiveBSphereAdd.

Definition bl_idname := "mesh.primitive_bsphere_add".

(** [bmesh]: geometry under construction. *)
Record BMesh := {
  verts : list (Q * Q * Q);
  bm_edges : list (nat * nat);
  faces : list (list nat)
}.

(** [bpy.data.meshes.new(...)]: an empty mesh data block. *)
Definition meshes_new `{Host} : Mesh :=
  {| vertices := []; edges := []; polygons := [];
     remesh_voxel_size := default_remesh_voxel_size |}.

(** [bmesh.new()] *)
Definition bmesh_new : BMesh := {| verts := []; bm_edges := []; faces := [] |}.

(** [bm.verts.new(co)] *)
Definition verts_new (xyz : Q * Q * Q) (bm : BMesh) : BMesh :=
  {| verts := verts bm ++ [xyz]; bm_edges := bm_edges bm; faces := faces bm |}.

(** [bm.to_mesh(mesh)]: the mesh's geometry is replaced by the bmesh's. *)
Definition to_mesh `{Host} (bm : BMesh) (mesh : Mesh) : Mesh :=
  {| vertices := map (fun xyz => {| co := xyz;
                                    select := default_vertex_flags.1.1;
                                    use_root := default_vertex_flags.1.2;
                                    use_loose := default_vertex_flags.2 |}) (verts bm);
     edges := bm_edges bm;
     polygons := faces bm;
     remesh_voxel_size := remesh_voxel_size mesh |}.

(** [obj.modifiers.new(name=n, type=ty)]: appended to the stack; the result
    is a handle on the new modifier (object, position). *)
Definition obj_modifiers_new `{Host} (obj : option nat) (n : string) (ty : ModifierType)
  : M State (nat * nat) :=
  match obj with
  | None => raise (AttributeError "'NoneType' object has no attribute 'modifiers'")
  | Some i =>
      fun s => match objects (context s) !! i with
               | Some o =>
                   let md := {| name := unique_name (map name (modifiers o)) n;
                                settings := new_settings ty |} in
                   (inr (i, length (modifiers o)),
                    set_context
                      (update_object i (fun _ => set_modifiers (modifiers o ++ [md]) o)
                         (context s)) s)
               | None => (inl (AttributeError "dangling object"), s)
               end
  end.

(** [mod.attr = value]: [set] fails where the modifier's type has no such
    attribute. *)
Definition modifier_setattr (h : nat * nat) (attr : string)
    (set : ModifierSettings -> option ModifierSettings) : M State unit :=
  fun s =>
    match objects (context s) !! h.1 with
    | Some o =>
        match modifiers o !! h.2 with
        | Some md =>
            match set (settings md) with
            | Some st =>
                (inr tt,
                 set_context
                   (update_object h.1
                      (fun _ => set_modifiers
                                  (<[h.2 := {| name := name md; settings := st |}]> (modifiers o)) o)
                      (context s)) s)
            | None => (inl (AttributeError attr), s)
            end
        | None => (inl (AttributeError "dangling modifier"), s)
        end
    | None => (inl (AttributeError "dangling object"), s)
    end.

Definition set_use_axis (h : nat * nat) (v : bool * bool * bool) : M State unit :=
  modifier_setattr h "use_axis"
    (fun st => match st with MirrorModifier _ => Some (MirrorModifier v) | _ => None end).

Definition set_use_x_symmetry (h : nat * nat) (b : bool) : M State unit :=
  modifier_setattr h "use_x_symmetry"
    (fun st => match st with SkinModifier _ y z => Some (SkinModifier b y z) | _ => None end).

Definition set_use_y_symmetry (h : nat * nat) (b : bool) : M State unit :=
  modifier_setattr h "use_y_symmetry"
    (fun st => match st with SkinModifier x _ z => Some (SkinModifier x b z) | _ => None end).

Definition set_use_z_symmetry (h : nat * nat) (b : bool) : M State unit :=
  modifier_setattr h "use_z_symmetry"
    (fun st => match st with SkinModifier x y _ => Some (SkinModifier x y b) | _ => None end).

Definition set_levels (h : nat * nat) (n : Z) : M State unit :=
  modifier_setattr h "levels"
    (fun st => match st with SubsurfModifier _ r => Some (SubsurfModifier n r) | _ => None end).

Definition set_render_levels (h : nat * nat) (n : Z) : M State unit :=
  modifier_setattr h "render_levels"
    (fun st => match st with SubsurfModifier l _ => Some (SubsurfModifier l n) | _ => None end).

Definition execute `{Host} : M State OperatorResult :=
  (* 1. Create a single vertex at (0,0,0) locally *)
  let mesh := meshes_new in
  let bm := bmesh_new in
  let bm := verts_new (0, 0, 0)%Q bm in
  let mesh := to_mesh bm mesh in
  (* 2. Add object to scene *)
  object_data_add mesh;;
  (* 3. Get the active object *)
  obj ← context_object;
  (* 4. Setup Modifiers *)
  mod_mirror ← obj_modifiers_new obj "Mirror" MIRROR;
  set_use_axis mod_mirror (true, false, false);;
  mod_skin ← obj_modifiers_new obj "Skin" SKIN;
  set_use_x_symmetry mod_skin false;;
  set_use_y_symmetry mod_skin false;;
  set_use_z_symmetry mod_skin false;;
  mod_sub ← obj_modifiers_new obj "Subdivision" SUBSURF;
  set_levels mod_sub 2;;
  set_render_levels mod_sub 2;;
  (* 5. Setup Edit Mode & Selection *)
  bpy_ops mode_set_EDIT enter_edit_mode;;
  bpy_ops select_all_SELECT select_all;;
  bpy_ops skin_root_mark (on_active_object mark_root);;
  (* 6. Viewport Settings *)
  ty ← context_space_data_type;
  (if bool_decide (ty = VIEW_3D) then set_show_xray true else ret tt);;
  ret FINISHED.

End MESH_OT_PrimitiveBSphereAdd.

(** ** VIEW3D_PT_BSpheresPanel *)

Module VIEW3D_PT_BSpheresPanel.

Definition bl_idname := "VIEW3D_PT_bSpheres_Panel".

(** Python truthiness of an optional host object. *)
Definition truthy {A} (x : option A) : bool :=
  match x with Some _ => true | None => false end.

(** A [UILayout] call on [parent]: one item is added under it, and the
    handle of the new item is returned. *)
Definition add (parent : Handle) (it : Item) : M State Handle :=
  fun s =>
    (inr (item_at (length (items s))),
     set_items (items s ++ [{| parent := parent; item := it; scale_y := 1 |}]) s).

(** [op.attr = value], on the properties of an operator button. *)
Definition operator_setattr (h : Handle) (attr value : string) : M State unit :=
  fun s =>
    match h with
    | item_at i =>
        match items s !! i with
        | Some {| parent := p; item := Operator id tx ic ps; scale_y := sc |} =>
            (inr tt,
             set_items (<[i := {| parent := p; item := Operator id tx ic (ps ++ [(attr, value)]);
                                   scale_y := sc |}]> (items s)) s)
        | _ => (inl (AttributeError attr), s)
        end
    | self_layout => (inl (AttributeError attr), s)
    end.

(** [sub.scale_y = q], on a sub-layout. *)
Definition set_scale_y (h : Handle) (q : Q) : M State unit :=
  fun s =>
    match h with
    | item_at i =>
        match items s !! i with
        | Some w =>
            (inr tt,
             set_items (<[i := {| parent := parent w; item := item w; scale_y := q |}]> (items s)) s)
        | None => (inl (AttributeError "scale_y"), s)
        end
    | self_layout => (inr tt, s)
    end.

(** Lines 157-161: the [has_bsphere_setup] flag. *)
Definition has_bsphere_setup (obj : option nat) : M State bool :=
  skin ← obj_modifiers_get obj "Skin";
  cond ← (if truthy skin then mret true
          else mirror ← obj_modifiers_get obj "Mirror"; mret (truthy mirror));
  mret (if cond : bool then true else false).

(** Lines 167-174: Mirror Controls. *)
Definition draw_mirror (obj : option nat) (box : Handle) : M State unit :=
  mod_mirror ← obj_modifiers_get obj "Mirror";
  match mod_mirror with
  | Some md =>
      row ← add box (Row true);
      add row (Label "Mirror:" "NONE");;
      add row (Property (name md) "use_axis" (Some 0%nat) "X" true);;
      add row (Property (name md) "use_axis" (Some 1%nat) "Y" true);;
      add row (Property (name md) "use_axis" (Some 2%nat) "Z" true);;
      mret tt
  | None => mret tt
  end.

(** Lines 176-181: Subsurf Controls. *)
Definition draw_subsurf (obj : option nat) (box : Handle) : M State unit :=
  mod_sub ← obj_modifiers_get obj "Subdivision";
  match mod_sub with
  | Some md =>
      row ← add box (Row true);
      add row (Label "Subd Level:" "NONE");;
      add row (Property (name md) "levels" None EmptyString false);;
      mret tt
  | None => mret tt
  end.

(** Lines 183-197: Skin Controls. *)
Definition draw_skin (obj : option nat) (box : Handle) : M State unit :=
  mod_skin ← obj_modifiers_get obj "Skin";
  match mod_skin with
  | Some _ =>
      add box Separator;;
      col ← add box (Column true);
      add col (Label "Skin Data (Edit Mode):" "NONE");;
      row ← add col (Row true);
      op_mark ← add row (Operator "object.skin_loose_mark_clear" "Mark Loose" "NONE" []);
      operator_setattr op_mark "action" "MARK";;
      op_clear ← add row (Operator "object.skin_loose_mark_clear" "Clear Loose" "NONE" []);
      operator_setattr op_clear "action" "CLEAR";;
      add col (Operator "object.skin_root_mark" "Mark Root" "ANCHOR_CENTER" []);;
      mret tt
  | None => mret tt
  end.

(** Lines 199-214: the Apply / Finish section and the info text. *)
Definition draw_finish : M State unit :=
  let layout := self_layout in
  add layout Separator;;
  col ← add layout (Column true);
  add col (Label "Finalize:" "NONE");;
  add col (Operator "tcg.apply_bsphere_modifiers" "Voxel Remesh & Apply" "SCULPTMODE_HLT" []);;
  (* Info Text *)
  box_info ← add layout Box;
  col_info ← add box_info (Column true);
  set_scale_y col_info 0.8;;
  add col_info (Label "Shortcuts:" "INFO");;
  add col_info (Label "• Extrude: E" "NONE");;
  add col_info (Label "• Scale Radius: Ctrl + A" "NONE");;
  add col_info (Label "• Split Segment: Ctrl + R" "NONE");;
  mret tt.

(** Lines 164-214: what is drawn for an object that has the setup. *)
Definition draw_tools (obj : option nat) : M State unit :=
  let layout := self_layout in
  box ← add layout Box;
  add box (Label "Modifiers" "MODIFIER");;
  draw_mirror obj box;;
  draw_subsurf obj box;;
  draw_skin obj box;;
  draw_finish.

(** Lines 145-153: the Creation section. *)
Definition draw_create : M State unit :=
  let layout := self_layout in
  col ← add layout (Column true);
  add col (Label "Create Base:" "NONE");;
  add col (Operator "mesh.primitive_bsphere_add" "Create bSphere" "MESH_UVSPHERE" []);;
  add layout Separator;;
  mret tt.

Definition draw : M State unit :=
  obj ← context_object;
  (* Creation Section *)
  draw_create;;
  (* Contextual Tools *)
  match obj with
  | Some i =>
      ty ← obj_type i;
      if bool_decide (ty = MESH) then
        has_setup ← has_bsphere_setup obj;
        if has_setup : bool then draw_tools obj else mret tt
      else mret tt
  | None => mret tt
  end.

End VIEW3D_PT_BSpheresPanel.

(** ** Registration: the classes handed to the host *)

(** An operator class as registered: its identifier and the [poll] it
    defines, if it defines one. *)
Record OperatorClass := {
  idname : string;
  own_poll : option (Context -> bool)
}.

Definition OBJECT_OT_ApplyBSphereModifiers_class : OperatorClass :=
  {| idname := OBJECT_OT_ApplyBSphereModifiers.bl_idname;
     own_poll := Some OBJECT_OT_ApplyBSphereModifiers.poll |}.

Definition MESH_OT_PrimitiveBSphereAdd_class : OperatorClass :=
  {| idname := MESH_OT_PrimitiveBSphereAdd.bl_idname;
     own_poll := None |}.

(** The host enables an operator in the contexts its [poll] accepts; a class
    that defines no [poll] is left to the check it inherits from the host's
    base classes. *)
Definition enabled (inherited : Context -> bool) (cls : OperatorClass) (c : Context) : bool :=
  match own_poll cls with
  | Some p => p c
  | None => inherited c
  end.

(** The host runs [execute] only where the operator is enabled. *)
Definition invoke {A} (inherited : Context -> bool) (cls : OperatorClass)
    (execute : M State A) (c : Context) : option ((Exception + A) * State) :=
  if enabled inherited cls c then Some (execute (init c)) else None.

(** ** Observations *)

(** The stage of that name is present on the object. *)
Definition present (n : string) (o : Object) : bool :=
  bool_decide (is_Some (modifiers_get n (modifiers o))).

(** The names of the modifiers the host was asked to bake, in call order. *)
Definition applied (e : Event) : option string :=
  match ev_call e with
  | modifier_apply n => Some n
  | _ => None
  end.

Definition attempted (evs : list Event) : list string := omap applied evs.

Definition succeeded (evs : list Event) : list string :=
  omap (fun e => match ev_raised e with None => applied e | Some _ => None end) evs.

Definition failed (evs : list Event) : list string :=
  omap (fun e => match ev_raised e with Some _ => applied e | None => None end) evs.

(** The voxel-remesh calls made. *)
Definition remesh_calls (evs : list Event) : list Event :=
  omap (fun e => match ev_call e with voxel_remesh => Some e | _ => None end) evs.

Definition warning (n : string) : ReportType * string :=
  (WARNING, "Could not apply modifier: " +:+ n).

(** The object after the host has baked the stage of that name (unchanged
    where it cannot). *)
Definition baked `{Host} (o : Object) (n : string) : Object :=
  match bake_modifier n o with
  | inr o' => o'
  | inl _ => o
  end.

Definition mesh_of (o : Object) : option Mesh :=
  match data o with
  | Some (MeshID m) => Some m
  | _ => None
  end.


(** The context once the finalizer has turned the 3D viewport's x-ray off. *)
Definition xray_off (c : Context) : Context :=
  match space_data c with
  | SpaceView3D _ => set_space_data (SpaceView3D false) c
  | _ => c
  end.

(** The warnings among the reported messages. *)
Definition warnings (rs : list (ReportType * string)) : list (ReportType * string) :=
  List.filter (fun r => match r.1 with WARNING => true | _ => false end) rs.

(** The interactive controls of a layout: values bound to a modifier's
    property, and operator buttons. *)
Inductive Control :=
| Bound (modifier property : string) (index : option nat)
| Button (idname : string) (properties : list (string * string)).

Definition control_of (w : Widget) : option Control :=
  match item w with
  | Operator id _ _ ps => Some (Button id ps)
  | Property md p i _ _ => Some (Bound md p i)
  | _ => None
  end.

Definition controls (l : list Widget) : list Control := omap control_of l.

(** What the panel shows in a context. *)
Definition rendered (c : Context) : list Control :=
  controls (items (final (VIEW3D_PT_BSpheresPanel.draw (init c)))).

Definition create_control : Control := Button "mesh.primitive_bsphere_add" [].

Definition finalize_control : Control := Button "tcg.apply_bsphere_modifiers" [].

(** The controls that belong to each stage. *)
Definition mirror_controls : list Control :=
  [Bound "Mirror" "use_axis" (Some 0%nat); Bound "Mirror" "use_axis" (Some 1%nat);
   Bound "Mirror" "use_axis" (Some 2%nat)].

Definition subdivision_controls : list Control := [Bound "Subdivision" "levels" None].

Definition skin_controls : list Control :=
  [Button "object.skin_loose_mark_clear" [("action", "MARK")];
   Button "object.skin_loose_mark_clear" [("action", "CLEAR")];
   Button "object.skin_root_mark" []].

Definition stage_controls (stage : string) : list Control :=
  if bool_decide (stage = "Mirror") then mirror_controls
  else if bool_decide (stage = "Subdivision") then subdivision_controls
  else if bool_decide (stage = "Skin") then skin_controls
  else [].

(** A computation that leaves the host context, the reported messages and
    the record of host calls as it found them. *)
Definition frame {A} (m : M State A) : Prop :=
  forall s,
    context (final (m s)) = context s
    /\ reports (final (m s)) = reports s
    /\ calls (final (m s)) = calls s.

(** A piece of the panel's drawing, run where handle [i] is object [o]: it
    does not raise, leaves the context alone, and adds the controls [ks]. *)
Definition draws (i : nat) (o : Object) (m : M State unit) (ks : list Control) : Prop :=
  forall s,
    objects (context s) !! i = Some o ->
    exists s',
      m s = (inr tt, s')
      /\ context s' = context s
      /\ controls (items s') = controls (items s) ++ ks.

#[global] Instance Control_eq_dec : EqDecision Control.
Proof. solve_decision. Defined.

(** ** Sample hosts and contexts *)

(** The add-object helper of the sample hosts: new data is merged into a
    mesh that is being edited, its points, edges and faces after the ones
    that are there; anywhere else an object is added and the context is in
    object-level mode afterwards. *)
Definition join_when_editing (c : Context) (mesh : Mesh) : DataAdd :=
  match mode c, object c ≫= mesh_of with
  | EDIT_MESH, Some m =>
      let n := length (vertices m) in
      Joined {| vertices := vertices m ++ vertices mesh;
                edges := edges m ++ map (fun e => (n + e.1, n + e.2)%nat) (edges mesh);
                polygons := polygons m ++ map (map (Nat.add n)) (polygons mesh);
                remesh_voxel_size := remesh_voxel_size m |}
  | _, _ => NewObject OBJECT
  end.

(** A host whose operators never report a failure; baking and remeshing
    leave the geometry as it is. *)
Definition quiet_host : Host :=
  {| raises := fun _ _ => None;
     modifier_eval := fun _ m => m;
     voxel_remesh_eval := fun m => m;
     default_use_axis := (true, false, false);
     default_symmetry := (true, false, false);
     default_levels := (1, 2)%Z;
     default_remesh_voxel_size := 0.1;
     default_vertex_flags := (false, false, false);
     rename := fun _ n => n +:+ ".001";
     data_add_eval := join_when_editing |}.

(** A host on which baking the stage named "Skin" fails. *)
Definition skin_fails_host : Host :=
  {| raises := fun op _ =>
       match op with
       | modifier_apply n => if String.eqb n "Skin" then Some "No valid root vertex found" else None
       | _ => None
       end;
     modifier_eval := fun _ m => m;
     voxel_remesh_eval := fun m => m;
     default_use_axis := (true, false, false);
     default_symmetry := (true, false, false);
     default_levels := (1, 2)%Z;
     default_remesh_voxel_size := 0.1;
     default_vertex_flags := (false, false, false);
     rename := fun _ n => n +:+ ".001";
     data_add_eval := join_when_editing |}.

(** A host on which every bake succeeds and the voxel remesh fails. *)
Definition remesh_fails_host : Host :=
  {| raises := fun op _ =>
       match op with
       | voxel_remesh => Some "Voxel remesher failed to create mesh"
       | _ => None
       end;
     modifier_eval := fun _ m => m;
     voxel_remesh_eval := fun m => m;
     default_use_axis := (true, false, false);
     default_symmetry := (true, false, false);
     default_levels := (1, 2)%Z;
     default_remesh_voxel_size := 0.1;
     default_vertex_flags := (false, false, false);
     rename := fun _ n => n +:+ ".001";
     data_add_eval := join_when_editing |}.

Definition single_point_mesh : Mesh :=
  {| vertices := [{| co := (0, 0, 0)%Q; select := true; use_root := true; use_loose := false |}];
     edges := []; polygons := []; remesh_voxel_size := 0.1 |}.

Definition mirror_stage : Modifier :=
  {| name := "Mirror"; settings := MirrorModifier (true, false, false) |}.

Definition skin_stage : Modifier :=
  {| name := "Skin"; settings := SkinModifier false false false |}.

Definition subdivision_stage : Modifier :=
  {| name := "Subdivision"; settings := SubsurfModifier 2 2 |}.

(** An object as the Base Creator leaves it. *)
Definition bsphere_object : Object :=
  {| data := Some (MeshID single_point_mesh);
     modifiers := [mirror_stage; skin_stage; subdivision_stage] |}.

(** That object, active, in object-level mode in a 3D viewport. *)
Definition bsphere_context : Context :=
  {| objects := [bsphere_object]; active := Some 0%nat; mode := OBJECT;
     space_data := SpaceView3D true |}.

(** The same object while its points are being edited. *)
Definition bsphere_edit_context : Context :=
  {| objects := [bsphere_object]; active := Some 0%nat; mode := EDIT_MESH;
     space_data := SpaceView3D true |}.

(** A mesh object whose only stage is the Subdivision one. *)
Definition subdivision_only_context : Context :=
  {| objects := [{| data := Some (MeshID single_point_mesh); modifiers := [subdivision_stage] |}];
     active := Some 0%nat; mode := OBJECT; space_data := SpaceView3D false |}.

(** An empty (an object without data), active, in object-level mode. *)
Definition empty_object_context : Context :=
  {| objects := [{| data := None; modifiers := [] |}];
     active := Some 0%nat; mode := OBJECT; space_data := SpaceView3D false |}.

(** A scene without objects. *)
Definition no_object_context : Context :=
  {| objects := []; active := None; mode := OBJECT; space_data := SpaceView3D false |}.


(** The context once the creator has turned the 3D viewport's x-ray on. *)
Definition xray_on (c : Context) : Context :=
  match space_data c with
  | SpaceView3D _ => set_space_data (SpaceView3D true) c
  | _ => c
  end.

(** ** Registration *)

(** The host's class registry is a black box: its state, and what
    [bpy.utils.register_class] and [bpy.utils.unregister_class] do to it. *)
Class RegistryHost := {
  Registry : Type;
  register_class : string -> M Registry unit;
  unregister_class : string -> M Registry unit
}.

Definition classes : list string :=
  ["OBJECT_OT_ApplyBSphereModifiers"; "MESH_OT_PrimitiveBSphereAdd"; "VIEW3D_PT_BSpheresPanel"].

Definition register `{RegistryHost} : M Registry unit :=
  for_each classes register_class.

Definition unregister `{RegistryHost} : M Registry unit :=
  for_each (reverse classes) unregister_class.

(** A sample registry: the list of registered class names.  Registering a
    registered class and unregistering an unregistered one fail. *)
Definition list_registry : RegistryHost :=
  {| Registry := list string;
     register_class := fun cls r =>
       if bool_decide (cls ∈ r) then (inl (RuntimeError "already registered"), r)
       else (inr tt, r ++ [cls]);
     unregister_class := fun cls r =>
       if bool_decide (cls ∈ r) then (inr tt, filter (fun x => x <> cls) r)
       else (inl (RuntimeError "not registered"), r) |}.

(** ** The layout as a tree *)

(** The items that can hold other items. *)
Definition is_container (it : Item) : bool :=
  match it with
  | Column _ | Row _ | Box => true
  | _ => false
  end.

(** The item at position [k] of layout [l] sits under the root or under a
    container that was added before it. *)
Definition well_placed (l : list Widget) (k : nat) (w : Widget) : bool :=
  match parent w with
  | self_layout => true
  | item_at j =>
      Nat.ltb j k && match l !! j with Some p => is_container (item p) | None => false end
  end.

Fixpoint well_placed_from (l : list Widget) (k : nat) (rest : list Widget) : bool :=
  match rest with
  | [] => true
  | w :: rest' => well_placed l k w && well_placed_from l (S k) rest'
  end.

Definition well_formed (l : list Widget) : bool := well_placed_from l 0 l.

Definition widget (p : Handle) (it : Item) : Widget :=
  {| parent := p; item := it; scale_y := 1 |}.

(** The items each part of [draw] adds to a layout that holds [n] items. *)
Definition layout_create (n : nat) : list Widget :=
  [ widget self_layout (Column true);
    widget (item_at n) (Label "Create Base:" "NONE");
    widget (item_at n) (Operator "mesh.primitive_bsphere_add" "Create bSphere" "MESH_UVSPHERE" []);
    widget self_layout Separator ].

Definition layout_mirror (o : Object) (box : Handle) (n : nat) : list Widget :=
  if present "Mirror" o then
    [ widget box (Row true);
      widget (item_at n) (Label "Mirror:" "NONE");
      widget (item_at n) (Property "Mirror" "use_axis" (Some 0%nat) "X" true);
      widget (item_at n) (Property "Mirror" "use_axis" (Some 1%nat) "Y" true);
      widget (item_at n) (Property "Mirror" "use_axis" (Some 2%nat) "Z" true) ]
  else [].

Definition layout_subsurf (o : Object) (box : Handle) (n : nat) : list Widget :=
  if present "Subdivision" o then
    [ widget box (Row true);
      widget (item_at n) (Label "Subd Level:" "NONE");
      widget (item_at n) (Property "Subdivision" "levels" None EmptyString false) ]
  else [].

Definition layout_skin (o : Object) (box : Handle) (n : nat) : list Widget :=
  if present "Skin" o then
    [ widget box Separator;
      widget box (Column true);
      widget (item_at (n + 1)) (Label "Skin Data (Edit Mode):" "NONE");
      widget (item_at (n + 1)) (Row true);
      widget (item_at (n + 3))
        (Operator "object.skin_loose_mark_clear" "Mark Loose" "NONE" [("action", "MARK")]);
      widget (item_at (n + 3))
        (Operator "object.skin_loose_mark_clear" "Clear Loose" "NONE" [("action", "CLEAR")]);
      widget (item_at (n + 1)) (Operator "object.skin_root_mark" "Mark Root" "ANCHOR_CENTER" []) ]
  else [].

Definition layout_finish (n : nat) : list Widget :=
  [ widget self_layout Separator;
    widget self_layout (Column true);
    widget (item_at (n + 1)) (Label "Finalize:" "NONE");
    widget (item_at (n + 1))
      (Operator "tcg.apply_bsphere_modifiers" "Voxel Remesh & Apply" "SCULPTMODE_HLT" []);
    widget self_layout Box;
    {| parent := item_at (n + 4); item := Column true; scale_y := 0.8 |};
    widget (item_at (n + 5)) (Label "Shortcuts:" "INFO");
    widget (item_at (n + 5)) (Label "• Extrude: E" "NONE");
    widget (item_at (n + 5)) (Label "• Scale Radius: Ctrl + A" "NONE");
    widget (item_at (n + 5)) (Label "• Split Segment: Ctrl + R" "NONE") ].

(** One part after another. *)
Definition layout_seq (ws1 ws2 : nat -> list Widget) (n : nat) : list Widget :=
  ws1 n ++ ws2 (n + length (ws1 n)).

Definition layout_tools (o : Object) (n : nat) : list Widget :=
  [ widget self_layout Box; widget (item_at n) (Label "Modifiers" "MODIFIER") ]
  ++ layout_seq (layout_mirror o (item_at n))
       (layout_seq (layout_subsurf o (item_at n))
          (layout_seq (layout_skin o (item_at n)) layout_finish)) (n + 2).

(** The whole layout of the panel for an active object, from an empty one. *)
Definition layout_of (obj : option Object) : list Widget :=
  layout_create 0
  ++ match obj with
     | Some o =>
         if bool_decide (type o = MESH) && (present "Skin" o || present "Mirror" o)
         then layout_tools o 4
         else []
     | None => []
     end.

(** A piece of the panel's drawing, run where handle [i] is object [o]: it
    does not raise, leaves the context alone, and adds the items [ws]. *)
Definition lays (i : nat) (o : Object) (m : M State unit) (ws : nat -> list Widget) : Prop :=
  forall s,
    objects (context s) !! i = Some o ->
    exists s',
      m s = (inr tt, s')
      /\ context s' = context s
      /\ items s' = items s ++ ws (length (items s)).

(** ** More sample contexts *)

(** A bSphere object that also carries stages of other names. *)
Definition decorated_object : Object :=
  {| data := Some (MeshID single_point_mesh);
     modifiers := [ {| name := "Bevel"; settings := OtherModifier |};
                    mirror_stage; skin_stage;
                    {| name := "Smooth"; settings := OtherModifier |};
                    subdivision_stage ] |}.

Definition decorated_context : Context :=
  {| objects := [decorated_object]; active := Some 0%nat; mode := OBJECT;
     space_data := SpaceProperties |}.

(** A mesh object with no stage at all. *)
Definition plain_mesh_object : Object :=
  {| data := Some (MeshID single_point_mesh); modifiers := [] |}.

Definition plain_mesh_context : Context :=
  {| objects := [plain_mesh_object]; active := Some 0%nat; mode := OBJECT;
     space_data := SpaceView3D true |}.

(** A scene of two objects, the second one active. *)
Definition two_object_context : Context :=
  {| objects := [{| data := Some CameraID; modifiers := [] |}; bsphere_object];
     active := Some 1%nat; mode := OBJECT; space_data := SpaceView3D true |}.

(** A host on which entering edit mode fails. *)
Definition edit_mode_fails_host : Host :=
  {| raises := fun op _ =>
       match op with
       | mode_set_EDIT => Some "Operator failed, context is incorrect"
       | _ => None
       end;
     modifier_eval := fun _ m => m;
     voxel_remesh_eval := fun m => m;
     default_use_axis := (true, false, false);
     default_symmetry := (true, false, false);
     default_levels := (1, 2)%Z;
     default_remesh_voxel_size := 0.1;
     default_vertex_flags := (false, false, false);
     rename := fun _ n => n +:+ ".001";
     data_add_eval := join_when_editing |}.
(** ** Facts about the data model *)

Lemma modifiers_get_name n l md : modifiers_get n l = Some md -> name md = n.
Proof.
  unfold modifiers_get. intros Hf. apply find_some in Hf as [_ Hn].
  by apply bool_decide_eq_true in Hn.
Qed.

Lemma modifiers_get_remove_ne n n' l :
  n <> n' -> modifiers_get n' (modifiers_remove n l) = modifiers_get n' l.
Proof.
  intros Hne. unfold modifiers_get. induction l as [|md l IH]; [done|].
  simpl. destruct (bool_decide (name md = n)) eqn:E1.
  - apply bool_decide_eq_true in E1.
    rewrite bool_decide_eq_false_2; [done | congruence].
  - simpl. by rewrite IH.
Qed.

Lemma modifiers_get_None n l : modifiers_get n l = None <-> n ∉ map name l.
Proof.
  unfold modifiers_get. induction l as [|md l IH]; simpl.
  - split; [intros _; apply not_elem_of_nil | done].
  - rewrite not_elem_of_cons. case_bool_decide as Hn.
    + split; [done | intros [? _]; congruence].
    + rewrite IH. split; [intros ?; split; [congruence | done] | tauto].
Qed.

Lemma modifiers_remove_names n l :
  NoDup (map name l) -> n ∉ map name (modifiers_remove n l).
Proof.
  induction l as [|md l IH]; simpl; [intros _; apply not_elem_of_nil|].
  rewrite NoDup_cons. intros [Hnot Hnd]. case_bool_decide as Hn.
  - by rewrite <- Hn.
  - simpl. rewrite not_elem_of_cons. split; [congruence | by apply IH].
Qed.

Lemma modifiers_remove_sub n n' l :
  n' ∈ map name (modifiers_remove n l) -> n' ∈ map name l.
Proof.
  induction l as [|md l IH]; simpl; [done|].
  case_bool_decide; simpl; rewrite !elem_of_cons; tauto.
Qed.

Lemma modifiers_remove_NoDup n l :
  NoDup (map name l) -> NoDup (map name (modifiers_remove n l)).
Proof.
  induction l as [|md l IH]; simpl; [done|].
  rewrite NoDup_cons. intros [Hnot Hnd]. case_bool_decide; [done|].
  simpl. rewrite NoDup_cons. split; [|by apply IH].
  intros Hin. by apply Hnot, (modifiers_remove_sub n).
Qed.

Lemma alter_const_id {A} (l : list A) i x : l !! i = Some x -> alter (fun _ => x) i l = l.
Proof.
  intros Hl. apply list_eq. intros j. rewrite list_lookup_alter.
  case_decide; [subst; by rewrite Hl | done].
Qed.

Lemma alter_const_twice {A} (l : list A) i (x y : A) :
  alter (fun _ => y) i (alter (fun _ => x) i l) = alter (fun _ => y) i l.
Proof.
  apply list_eq. intros j. destruct (decide (i = j)) as [->|Hne].
  - rewrite !list_lookup_alter_eq. by destruct (l !! j).
  - by rewrite !list_lookup_alter_ne.
Qed.

Lemma lookup_alter_const {A} (l : list A) i (x y : A) :
  l !! i = Some x -> alter (fun _ => y) i l !! i = Some y.
Proof. intros Hl. by rewrite list_lookup_alter_eq, Hl. Qed.

Lemma filter_ext_elem {A} (P Q : A -> Prop) `{!forall x, Decision (P x)} `{!forall x, Decision (Q x)}
    (l : list A) :
  (forall x, x ∈ l -> P x <-> Q x) -> filter P l = filter Q l.
Proof.
  induction l as [|x l IH]; intros Hpq; [done|].
  rewrite !filter_cons, IH by (intros y Hy; apply Hpq; by right).
  pose proof (Hpq x (list_elem_of_here _ _)) as Hx.
  destruct (decide (P x)), (decide (Q x)); tauto || done.
Qed.

(** ** Facts about contexts and states *)

Lemma update_object_id c i o : objects c !! i = Some o -> update_object i (fun _ => o) c = c.
Proof.
  intros Hl. destruct c as [os a md sp]. unfold update_object, set_objects. simpl in *.
  by rewrite alter_const_id.
Qed.

Lemma update_object_twice c i o1 o2 :
  update_object i (fun _ => o2) (update_object i (fun _ => o1) c) = update_object i (fun _ => o2) c.
Proof. unfold update_object, set_objects. simpl. by rewrite alter_const_twice. Qed.

Lemma objects_update_object c i o o' :
  objects c !! i = Some o -> objects (update_object i (fun _ => o') c) !! i = Some o'.
Proof. intros Hl. simpl. by apply lookup_alter_const with o. Qed.

Lemma object_update_object c i o o' :
  active c = Some i -> objects c !! i = Some o ->
  object (update_object i (fun _ => o') c) = Some o'.
Proof. intros Ha Hl. unfold object. simpl. rewrite Ha. by apply lookup_alter_const with o. Qed.

Lemma object_lookup c i o : active c = Some i -> objects c !! i = Some o -> object c = Some o.
Proof. intros Ha Hl. unfold object. by rewrite Ha. Qed.

Lemma object_inv c o : object c = Some o -> exists i, active c = Some i /\ objects c !! i = Some o.
Proof. unfold object. destruct (active c) as [i|]; [eauto | done]. Qed.

Lemma state_eta (s : State) :
  {| context := context s; reports := reports s; calls := calls s; items := items s |} = s.
Proof. by destruct s. Qed.

(** ** Facts about the observations *)

Lemma attempted_app evs1 evs2 : attempted (evs1 ++ evs2) = attempted evs1 ++ attempted evs2.
Proof. apply omap_app. Qed.

Lemma succeeded_app evs1 evs2 : succeeded (evs1 ++ evs2) = succeeded evs1 ++ succeeded evs2.
Proof. apply omap_app. Qed.

Lemma failed_app evs1 evs2 : failed (evs1 ++ evs2) = failed evs1 ++ failed evs2.
Proof. apply omap_app. Qed.

Lemma remesh_calls_app evs1 evs2 : remesh_calls (evs1 ++ evs2) = remesh_calls evs1 ++ remesh_calls evs2.
Proof. apply omap_app. Qed.

Lemma attempted_split evs n : n ∈ attempted evs <-> n ∈ succeeded evs \/ n ∈ failed evs.
Proof.
  unfold attempted, succeeded, failed. induction evs as [|e evs IH]; simpl.
  - rewrite !elem_of_nil. tauto.
  - destruct (ev_raised e), (applied e); simpl; rewrite ?elem_of_cons, IH; tauto.
Qed.

Lemma remesh_calls_applied evs :
  Forall (fun e => is_Some (applied e)) evs -> remesh_calls evs = [].
Proof.
  unfold remesh_calls, applied. induction 1 as [|e evs [n Hn] _ IH]; simpl; [done|].
  by destruct (ev_call e).
Qed.

Lemma applied_remesh_event e : ev_call e = voxel_remesh -> applied e = None.
Proof. unfold applied. by intros ->. Qed.

Lemma attempted_snoc evs e : ev_call e = voxel_remesh -> attempted (evs ++ [e]) = attempted evs.
Proof.
  intros He. rewrite attempted_app. unfold attempted at 2. simpl.
  by rewrite (applied_remesh_event e He), app_nil_r.
Qed.

Lemma succeeded_snoc evs e : ev_call e = voxel_remesh -> succeeded (evs ++ [e]) = succeeded evs.
Proof.
  intros He. rewrite succeeded_app. unfold succeeded at 2. simpl.
  rewrite (applied_remesh_event e He). destruct (ev_raised e); by rewrite app_nil_r.
Qed.

Lemma failed_snoc evs e : ev_call e = voxel_remesh -> failed (evs ++ [e]) = failed evs.
Proof.
  intros He. rewrite failed_app. unfold failed at 2. simpl.
  rewrite (applied_remesh_event e He). destruct (ev_raised e); by rewrite app_nil_r.
Qed.

Lemma remesh_calls_snoc evs e :
  Forall (fun e => is_Some (applied e)) evs -> ev_call e = voxel_remesh ->
  remesh_calls (evs ++ [e]) = [e].
Proof.
  intros Hall He. rewrite remesh_calls_app, (remesh_calls_applied evs Hall).
  unfold remesh_calls. simpl. by rewrite He.
Qed.

Lemma succeeded_failed_disjoint evs n :
  NoDup (attempted evs) -> n ∈ succeeded evs -> n ∈ failed evs -> False.
Proof.
  unfold attempted, succeeded, failed. induction evs as [|e evs IH]; simpl.
  - intros _ Hin. by apply elem_of_nil in Hin.
  - pose proof (attempted_split evs) as Hsplit. unfold attempted, succeeded, failed in Hsplit.
    destruct (applied e) as [n0|] eqn:Happ; simpl.
    + rewrite NoDup_cons. intros [Hnot Hnd].
      destruct (ev_raised e); simpl; rewrite ?elem_of_cons.
      * intros Hs [->|Hf]; [apply Hnot, Hsplit; eauto | eauto].
      * intros [->|Hs] Hf; [apply Hnot, Hsplit; eauto | eauto].
    + destruct (ev_raised e); simpl; eauto.
Qed.

Lemma warnings_warning ns : warnings (map warning ns) = map warning ns.
Proof. unfold warnings. induction ns as [|n ns IH]; simpl; [done | by rewrite IH]. Qed.

Lemma warnings_app rs1 rs2 : warnings (rs1 ++ rs2) = warnings rs1 ++ warnings rs2.
Proof. apply List.filter_app. Qed.

Lemma modifiers_remove_absent n l : modifiers_get n l = None -> modifiers_remove n l = l.
Proof.
  unfold modifiers_get. induction l as [|md l IH]; simpl; [done|].
  destruct (bool_decide (name md = n)); [done|]. intros Hf. by rewrite IH.
Qed.

Lemma present_remove_foldl n ns l :
  NoDup (map name l) -> n ∈ ns ->
  modifiers_get n (foldl (fun l n => modifiers_remove n l) l ns) = None.
Proof.
  revert l. induction ns as [|n0 ns IH]; intros l Hnd Hin; simpl.
  - by apply elem_of_nil in Hin.
  - apply elem_of_cons in Hin as [->|Hin].
    + apply modifiers_get_None.
      assert (Hsub : forall l', n0 ∉ map name l' ->
                n0 ∉ map name (foldl (fun l n => modifiers_remove n l) l' ns)).
      { clear. induction ns as [|n1 ns IH]; intros l' Hnot; simpl; [done|].
        apply IH. intros Hin. by apply Hnot, (modifiers_remove_sub n1). }
      by apply Hsub, modifiers_remove_names.
    + apply IH; [by apply modifiers_remove_NoDup | done].
Qed.

Ltac munfold :=
  unfold report, mbind, mret, M_bind, M_ret, bind, ret, gets, modify, raise,
    try_except_RuntimeError, bpy_ops, record, set_context, result, final in *.

Section finalizer.
Context `{Host}.

Lemma mesh_of_baked o n : is_Some (mesh_of (baked o n)) <-> is_Some (mesh_of o).
Proof.
  unfold baked, bake_modifier, mesh_of.
  destruct (data o) as [[]|] eqn:Hd; simpl; rewrite ?Hd; try done.
  destruct (modifiers_get n (modifiers o)); simpl; rewrite ?Hd; split; eauto.
Qed.

Lemma present_baked_ne o n n' : n <> n' -> present n' (baked o n) = present n' o.
Proof.
  intros Hne. unfold present, baked, bake_modifier.
  destruct (data o) as [[]|]; try done.
  destruct (modifiers_get n (modifiers o)); [simpl|done].
  by rewrite modifiers_get_remove_ne.
Qed.

Lemma modifiers_baked o n :
  is_Some (mesh_of o) -> modifiers (baked o n) = modifiers_remove n (modifiers o).
Proof.
  unfold mesh_of, baked, bake_modifier. intros [m Hm].
  destruct (data o) as [[]|]; try done.
  destruct (modifiers_get n (modifiers o)) eqn:Hget; [done|].
  by rewrite modifiers_remove_absent.
Qed.

Lemma modifiers_foldl_baked o ns :
  is_Some (mesh_of o) ->
  modifiers (foldl baked o ns) = foldl (fun l n => modifiers_remove n l) (modifiers o) ns.
Proof.
  revert o. induction ns as [|n ns IH]; intros o Hm; simpl; [done|].
  rewrite IH by by apply mesh_of_baked. by rewrite modifiers_baked.
Qed.

Import OBJECT_OT_ApplyBSphereModifiers.

Lemma apply_named_step n s i o :
  active (context s) = Some i -> objects (context s) !! i = Some o ->
  exists evs,
    apply_named (Some i) n s =
      (inr tt, {| context := update_object i (fun _ => foldl baked o (succeeded evs)) (context s);
                  reports := reports s ++ map warning (failed evs);
                  calls := calls s ++ evs;
                  items := items s |})
    /\ attempted evs = (if present n o then [n] else [])
    /\ Forall (fun e => is_Some (applied e)) evs
    /\ (succeeded evs <> [] -> is_Some (mesh_of o)).
Proof.
  intros Ha Hl. unfold apply_named, obj_modifiers_get, present. munfold. rewrite Hl.
  pose proof (object_lookup _ _ _ Ha Hl) as Hobj.
  assert (Hfail : forall msg,
    exists evs,
      (@inr Exception unit tt, {| context := context s;
                  reports := reports s ++ [(WARNING, "Could not apply modifier: " +:+ n)];
                  calls := calls s ++ [{| ev_call := modifier_apply n;
                                          ev_object := Some o;
                                          ev_raised := Some msg |}];
                  items := items s |}) =
      (@inr Exception unit tt, {| context := update_object i (fun _ => foldl baked o (succeeded evs)) (context s);
                  reports := reports s ++ map warning (failed evs);
                  calls := calls s ++ evs;
                  items := items s |})
      /\ attempted evs = [n]
      /\ Forall (fun e => is_Some (applied e)) evs
      /\ (succeeded evs <> [] -> is_Some (mesh_of o))).
  { intros msg.
    exists [{| ev_call := modifier_apply n; ev_object := Some o;
               ev_raised := Some msg |}].
    simpl. rewrite update_object_id by done. repeat split; [|done].
    repeat constructor. simpl. eauto. }
  destruct (modifiers_get n (modifiers o)) as [md|] eqn:Hget.
  - apply modifiers_get_name in Hget as Hn. rewrite Hn.
    rewrite bool_decide_eq_true_2 by eauto.
    unfold on_active_object. cbv beta. rewrite Hobj, Ha.
    destruct (raises (modifier_apply n) (context s)) as [msg|] eqn:Hr; [apply Hfail|].
    unfold bake_modifier. rewrite Hget.
    destruct (data o) as [[m| | |]|] eqn:Hd; simpl; try apply Hfail.
    exists [{| ev_call := modifier_apply n; ev_object := Some o; ev_raised := None |}].
    simpl. unfold baked, bake_modifier. rewrite Hd, Hget, app_nil_r.
    repeat split.
    + repeat constructor. simpl. eauto.
    + intros _. unfold mesh_of. rewrite Hd. eauto.
  - exists []. simpl. rewrite update_object_id by done. rewrite !app_nil_r, state_eta.
    repeat split; done.
Qed.

Lemma mesh_of_foldl_baked o ns : is_Some (mesh_of (foldl baked o ns)) <-> is_Some (mesh_of o).
Proof.
  revert o. induction ns as [|n ns IH]; intros o; simpl; [done|].
  by rewrite IH, mesh_of_baked.
Qed.

Lemma present_foldl_baked o ns n' : n' ∉ ns -> present n' (foldl baked o ns) = present n' o.
Proof.
  revert o. induction ns as [|n ns IH]; intros o; simpl; [done|].
  rewrite not_elem_of_cons. intros [Hne Hnot].
  rewrite IH by done. by apply present_baked_ne.
Qed.

Lemma apply_loop ns :
  NoDup ns -> forall s i o,
  active (context s) = Some i -> objects (context s) !! i = Some o ->
  exists evs,
    for_each ns (apply_named (Some i)) s =
      (inr tt, {| context := update_object i (fun _ => foldl baked o (succeeded evs)) (context s);
                  reports := reports s ++ map warning (failed evs);
                  calls := calls s ++ evs;
                  items := items s |})
    /\ attempted evs = filter (fun n => present n o) ns
    /\ Forall (fun e => is_Some (applied e)) evs
    /\ (succeeded evs <> [] -> is_Some (mesh_of o)).
Proof.
  induction 1 as [|n ns Hnot Hnd IH]; intros s i o Ha Hl.
  - exists []. simpl. unfold ret. rewrite update_object_id by done.
    rewrite !app_nil_r, state_eta. repeat split; done.
  - destruct (apply_named_step n s i o Ha Hl) as (evs1 & Hstep & Hatt1 & Hall1 & Hmesh1).
    set (o1 := foldl baked o (succeeded evs1)) in *.
    set (s1 := {| context := update_object i (fun _ => o1) (context s);
                  reports := reports s ++ map warning (failed evs1);
                  calls := calls s ++ evs1; items := items s |}) in *.
    destruct (IH s1 i o1) as (evs2 & Hloop & Hatt2 & Hall2 & Hmesh2).
    { done. }
    { simpl. by apply lookup_alter_const with o. }
    assert (Hsub : forall n', n' ∈ succeeded evs1 -> n' = n).
    { intros n' Hin. assert (Hin' : n' ∈ attempted evs1) by (apply attempted_split; eauto).
      rewrite Hatt1 in Hin'. destruct (present n o).
      - by apply list_elem_of_singleton in Hin'.
      - by apply elem_of_nil in Hin'. }
    exists (evs1 ++ evs2). simpl. unfold bind. rewrite Hstep, Hloop. subst s1. simpl.
    rewrite update_object_twice, succeeded_app, failed_app, attempted_app, foldl_app.
    rewrite map_app, !app_assoc.
    repeat split.
    + rewrite Hatt1, Hatt2, filter_cons. 
      assert (Heq : filter (fun n0 => present n0 o1) ns = filter (fun n0 => present n0 o) ns).
      { apply filter_ext_elem. intros n' Hin.
        subst o1. rewrite present_foldl_baked; [done|].
        intros Hin'. apply Hsub in Hin'. subst. by apply Hnot. }
      rewrite Heq. by destruct (present n o).
    + by apply Forall_app.
    + intros Hne. destruct (succeeded evs1) as [|n1 l1] eqn:Hs1.
      * apply Hmesh2. by destruct (succeeded evs2).
      * apply Hmesh1. done.
Qed.

Lemma active_xray_off c : active (xray_off c) = active c.
Proof. unfold xray_off. by destruct (space_data c). Qed.

Lemma objects_xray_off c : objects (xray_off c) = objects c.
Proof. unfold xray_off. by destruct (space_data c). Qed.

Lemma mode_xray_off c : mode (xray_off c) = mode c.
Proof. unfold xray_off. by destruct (space_data c). Qed.

(** The bake step on a context with an active object. *)
Lemma bake_run c i o :
  active c = Some i -> objects c !! i = Some o ->
  exists evs,
    bake (init c) =
      (inr (Some i),
       {| context := update_object i (fun _ => foldl baked o (succeeded evs)) (xray_off c);
          reports := map warning (failed evs);
          calls := evs;
          items := [] |})
    /\ attempted evs = filter (fun n => present n o) modifiers_to_apply
    /\ Forall (fun e => is_Some (applied e)) evs
    /\ (succeeded evs <> [] -> is_Some (mesh_of o)).
Proof.
  intros Ha Hl.
  assert (Hnd : NoDup modifiers_to_apply).
  { apply (bool_decide_unpack _). by vm_compute. }
  destruct (apply_loop _ Hnd (init (xray_off c)) i o) as (evs & Hloop & Hrest).
  { simpl. by rewrite active_xray_off. }
  { simpl. by rewrite objects_xray_off. }
  exists evs. split; [|done].
  unfold bake, context_object, context_space_data_type, set_show_xray. munfold.
  unfold xray_off in *. cbn [context init]. rewrite (object_lookup _ _ _ Ha Hl), Ha.
  unfold init in *. cbn [context reports calls items] in Hloop. rewrite app_nil_l in Hloop.
  destruct (space_data c) eqn:Hsp; cbn [space_type];
    rewrite ?bool_decide_eq_true_2, ?bool_decide_eq_false_2 by done;
    cbv beta; cbn [context reports calls items]; rewrite ?Hsp; cbv iota beta;
    rewrite Hloop; done.
Qed.

(** The remesh step on a mesh object. *)
Lemma remesh_run v s i o m :
  active (context s) = Some i -> objects (context s) !! i = Some o ->
  data o = Some (MeshID m) ->
  let o_call := set_data (Some (MeshID (set_remesh_voxel_size v m))) o in
  let c_call := update_object i (fun _ => o_call) (context s) in
  remesh v (Some i) s =
    match raises voxel_remesh c_call with
    | Some msg =>
        (inr FINISHED,
         {| context := c_call;
            reports := reports s ++ [(ERROR, "Remesh failed: " +:+ msg)];
            calls := calls s ++ [{| ev_call := voxel_remesh; ev_object := Some o_call;
                                    ev_raised := Some msg |}];
            items := items s |})
    | None =>
        (inr FINISHED,
         {| context := update_object i
                         (fun _ => set_data
                            (Some (MeshID (voxel_remesh_eval (set_remesh_voxel_size v m)))) o)
                         (context s);
            reports := reports s ++ [(INFO, "bSphere mesh applied and remeshed.")];
            calls := calls s ++ [{| ev_call := voxel_remesh; ev_object := Some o_call;
                                    ev_raised := None |}];
            items := items s |})
    end.
Proof.
  intros Ha Hl Hd o_call c_call.
  assert (Hobj : object c_call = Some o_call) by by apply object_update_object with o.
  unfold remesh, obj_data, mesh_set_remesh_voxel_size. munfold. rewrite Hl, Hd. simpl.
  rewrite Hl, Hd. fold o_call. fold c_call.
  cbn [context reports calls items]. unfold on_active_object. rewrite Hobj.
  assert (Hac : active c_call = Some i) by done. rewrite Hac.
  destruct (raises voxel_remesh c_call) as [msg|] eqn:Hr; [done|].
  unfold remesh_object, o_call. cbn [data set_data modifiers context reports calls items].
  subst c_call. by rewrite update_object_twice.
Qed.

(** The remesh step on an object without mesh data. *)
Lemma remesh_no_mesh v s i o :
  objects (context s) !! i = Some o -> mesh_of o = None ->
  exists msg, remesh v (Some i) s = (inl (AttributeError msg), s).
Proof.
  intros Hl Hm. unfold remesh, obj_data, mesh_set_remesh_voxel_size. munfold. rewrite Hl.
  unfold mesh_of in Hm. destruct (data o) as [[]|] eqn:Hd; try done; simpl;
    rewrite ?Hl, ?Hd; eauto.
Qed.

(** A whole run of the finalizer on a context with an active object: the
    bake step, then either an [AttributeError] (no mesh data) or the remesh
    call and [FINISHED]. *)
Lemma execute_run v c i o :
  active c = Some i -> objects c !! i = Some o ->
  exists evs,
    attempted evs = filter (fun n => present n o) modifiers_to_apply
    /\ Forall (fun e => is_Some (applied e)) evs
    /\ (succeeded evs <> [] -> is_Some (mesh_of o))
    /\ bake (init c) =
         (inr (Some i),
          {| context := update_object i (fun _ => foldl baked o (succeeded evs)) (xray_off c);
             reports := map warning (failed evs); calls := evs; items := [] |})
    /\ match mesh_of (foldl baked o (succeeded evs)) with
       | None =>
           exists msg,
             execute v (init c) =
               (inl (AttributeError msg),
                {| context := update_object i (fun _ => foldl baked o (succeeded evs)) (xray_off c);
                   reports := map warning (failed evs); calls := evs; items := [] |})
       | Some m_b =>
           let o_call := set_data (Some (MeshID (set_remesh_voxel_size v m_b)))
                           (foldl baked o (succeeded evs)) in
           exists e r o',
             execute v (init c) =
               (inr FINISHED,
                {| context := update_object i (fun _ => o') (xray_off c);
                   reports := map warning (failed evs) ++ [r];
                   calls := evs ++ [e]; items := [] |})
             /\ ev_call e = voxel_remesh
             /\ ev_object e = Some o_call
             /\ match ev_raised e with
                | Some msg => r = (ERROR, "Remesh failed: " +:+ msg) /\ o' = o_call
                | None =>
                    r = (INFO, "bSphere mesh applied and remeshed.")
                    /\ o' = set_data (Some (MeshID (voxel_remesh_eval
                                                     (set_remesh_voxel_size v m_b))))
                               (foldl baked o (succeeded evs))
                end
       end.
Proof.
  intros Ha Hl.
  destruct (bake_run c i o Ha Hl) as (evs & Hbake & Hatt & Hall & Hmesh).
  exists evs. repeat (split; [done|]).
  set (o_b := foldl baked o (succeeded evs)) in *.
  set (s_b := {| context := update_object i (fun _ => o_b) (xray_off c);
                 reports := map warning (failed evs); calls := evs; items := [] |}) in *.
  assert (Hab : active (context s_b) = Some i) by (simpl; by rewrite active_xray_off).
  assert (Hlb : objects (context s_b) !! i = Some o_b).
  { simpl. apply lookup_alter_const with o. by rewrite objects_xray_off. }
  assert (Hex : execute v (init c) = remesh v (Some i) s_b).
  { unfold execute. unfold mbind, M_bind, bind. by rewrite Hbake. }
  destruct (mesh_of o_b) as [m_b|] eqn:Hm.
  - assert (Hd : data o_b = Some (MeshID m_b)).
    { unfold mesh_of in Hm. destruct (data o_b) as [[]|]; congruence. }
    pose proof (remesh_run v s_b i o_b m_b Hab Hlb Hd) as Hrun. simpl in Hrun.
    rewrite !update_object_twice in Hrun. rewrite Hex, Hrun.
    destruct (raises voxel_remesh _) as [msg|]; do 3 eexists; (split; [reflexivity|]);
      simpl; rewrite ?update_object_twice; repeat split; reflexivity.
  - destruct (remesh_no_mesh v s_b i o_b Hlb Hm) as [msg Hrun].
    exists msg. by rewrite Hex, Hrun.
Qed.


Lemma succeeded_all evs : failed evs = [] -> succeeded evs = attempted evs.
Proof.
  unfold failed, succeeded, attempted. induction evs as [|e evs IH]; simpl; [done|].
  destruct (ev_raised e), (applied e); simpl; intros Hf; try discriminate;
    first [exact (IH Hf) | exact (f_equal (cons _) (IH Hf))].
Qed.

(** C3: the finalizer asks the host to bake the stages named "Mirror", "Skin",
    "Subdivision" in that order, skipping a name only when no stage of that
    name is on the object; every failed bake is reported as a warning and
    does not stop the later bakes; a stage whose bake succeeded is removed
    from the stack and a stage whose bake failed stays. *)
Theorem finalizer_bakes_in_fixed_order v c o :
  object c = Some o ->
  exists o',
    object (context (final (execute v (init c)))) = Some o'
    /\ attempted (calls (final (execute v (init c))))
       = filter (fun n => present n o) ["Mirror"; "Skin"; "Subdivision"]
    /\ warnings (reports (final (execute v (init c))))
       = map warning (failed (calls (final (execute v (init c)))))
    /\ modifiers o'
       = foldl (fun l n => modifiers_remove n l) (modifiers o)
           (succeeded (calls (final (execute v (init c)))))
    /\ (forall n, n ∈ failed (calls (final (execute v (init c)))) -> present n o' = true)
    /\ (NoDup (map name (modifiers o)) ->
        forall n, n ∈ succeeded (calls (final (execute v (init c)))) -> present n o' = false).
Proof.
  intros Hobj. apply object_inv in Hobj as (i & Ha & Hl).
  destruct (execute_run v c i o Ha Hl) as (evs & Hatt & Hall & Hmesh & _ & Hrun).
  fold modifiers_to_apply.
  assert (Hnd : NoDup (attempted evs)).
  { rewrite Hatt. apply NoDup_filter. apply (bool_decide_unpack _). by vm_compute. }
  assert (Hmods : modifiers (foldl baked o (succeeded evs))
                  = foldl (fun l n => modifiers_remove n l) (modifiers o) (succeeded evs)).
  { destruct (succeeded evs) as [|n0 l0] eqn:Hs; [done|].
    apply modifiers_foldl_baked, Hmesh. done. }
  assert (Hfailed : forall n, n ∈ failed evs -> present n (foldl baked o (succeeded evs)) = true).
  { intros n Hf. rewrite present_foldl_baked.
    - assert (Hin : n ∈ attempted evs) by (apply attempted_split; eauto).
      rewrite Hatt in Hin. apply list_elem_of_filter in Hin as [Hp _].
      by apply Is_true_true.
    - intros Hs. by apply (succeeded_failed_disjoint evs n). }
  assert (Hgone : NoDup (map name (modifiers o)) ->
            forall n, n ∈ succeeded evs -> present n (foldl baked o (succeeded evs)) = false).
  { intros Hndm n Hs. unfold present. rewrite Hmods.
    rewrite present_remove_foldl by done. apply bool_decide_eq_false_2. by intros [? ?]. }
  assert (Hobj_b : forall o1,
    object (update_object i (fun _ => o1) (xray_off c)) = Some o1).
  { intros o1. apply object_update_object with o;
      [by rewrite active_xray_off | by rewrite objects_xray_off]. }
  destruct (mesh_of (foldl baked o (succeeded evs))) as [m_b|] eqn:Hm.
  - destruct Hrun as (e & r & o' & Hrun & He & Hev & Hcase).
    rewrite Hrun. unfold final. cbn [snd context reports calls].
    rewrite attempted_snoc, failed_snoc, succeeded_snoc by done.
    assert (Ho' : modifiers o' = modifiers (foldl baked o (succeeded evs))
                  /\ warnings [r] = []).
    { destruct (ev_raised e); destruct Hcase as [-> ->]; done. }
    destruct Ho' as [Ho' Hr].
    exists o'. rewrite Hobj_b, warnings_app, warnings_warning, Hr, app_nil_r.
    unfold present in *. rewrite Ho'. repeat split; eauto.
  - destruct Hrun as (msg & Hrun).
    rewrite Hrun. unfold final. cbn [snd context reports calls].
    exists (foldl baked o (succeeded evs)).
    rewrite Hobj_b, warnings_warning. repeat split; eauto.
Qed.

Lemma mesh_of_data o m : mesh_of o = Some m -> data o = Some (MeshID m).
Proof. unfold mesh_of. destruct (data o) as [[]|]; congruence. Qed.

Lemma present_get n o : present n o = true -> exists md, modifiers_get n (modifiers o) = Some md.
Proof. unfold present. intros Hp. by apply bool_decide_eq_true in Hp as [md Hmd]; eauto. Qed.

(** C4: when the three named stages are present and every bake succeeds, the
    run finishes; the three stages are baked in order and none of them is
    left on the object; the one voxel-remesh call comes last and is made on
    the baked mesh with its remesh voxel size set to exactly [v]. *)
Theorem finalizer_success v c o :
  object c = Some o ->
  NoDup (map name (modifiers o)) ->
  present "Mirror" o = true -> present "Skin" o = true -> present "Subdivision" o = true ->
  (min voxel_size <= v <= max voxel_size)%Q ->
  failed (calls (final (execute v (init c)))) = [] ->
  exists m md1 md2 md3 e o_call o',
    mesh_of o = Some m
    /\ modifiers_get "Mirror" (modifiers o) = Some md1
    /\ modifiers_get "Skin" (modifiers o) = Some md2
    /\ modifiers_get "Subdivision" (modifiers o) = Some md3
    /\ result (execute v (init c)) = inr FINISHED
    /\ succeeded (calls (final (execute v (init c)))) = ["Mirror"; "Skin"; "Subdivision"]
    /\ remesh_calls (calls (final (execute v (init c)))) = [e]
    /\ last (calls (final (execute v (init c)))) = Some e
    /\ ev_object e = Some o_call
    /\ mesh_of o_call
       = Some (set_remesh_voxel_size v
                 (modifier_eval md3 (modifier_eval md2 (modifier_eval md1 m))))
    /\ remesh_voxel_size <$> mesh_of o_call = Some v
    /\ (forall n, n ∈ modifiers_to_apply -> present n o_call = false)
    /\ object (context (final (execute v (init c)))) = Some o'
    /\ (forall n, n ∈ modifiers_to_apply -> present n o' = false)
    /\ (ev_raised e = None ->
        mesh_of o'
        = Some (voxel_remesh_eval
                  (set_remesh_voxel_size v
                     (modifier_eval md3 (modifier_eval md2 (modifier_eval md1 m)))))).
Proof.
  intros Hobj Hndm Hp1 Hp2 Hp3 _ Hnofail. apply object_inv in Hobj as (i & Ha & Hl).
  destruct (execute_run v c i o Ha Hl) as (evs & Hatt & Hall & Hmesh & _ & Hrun).
  assert (Hatt' : attempted evs = ["Mirror"; "Skin"; "Subdivision"]).
  { rewrite Hatt. unfold modifiers_to_apply.
    rewrite !filter_cons, filter_nil, Hp1, Hp2, Hp3. done. }
  assert (Hfe : failed evs = []).
  { destruct (mesh_of (foldl baked o (succeeded evs))).
    - destruct Hrun as (e & r & o' & Hrun & He & _). rewrite Hrun in Hnofail.
      unfold final in Hnofail. cbn [snd calls] in Hnofail. by rewrite failed_snoc in Hnofail.
    - destruct Hrun as (msg & Hrun). by rewrite Hrun in Hnofail. }
  assert (Hsucc : succeeded evs = ["Mirror"; "Skin"; "Subdivision"]).
  { by rewrite succeeded_all. }
  destruct Hmesh as [m Hm]; [by rewrite Hsucc|].
  apply present_get in Hp1 as [md1 Hg1]. apply present_get in Hp2 as [md2 Hg2].
  apply present_get in Hp3 as [md3 Hg3].
  assert (Hob : foldl baked o (succeeded evs)
                = {| data := Some (MeshID (modifier_eval md3 (modifier_eval md2 (modifier_eval md1 m))));
                     modifiers := modifiers_remove "Subdivision"
                                    (modifiers_remove "Skin"
                                       (modifiers_remove "Mirror" (modifiers o))) |}).
  { rewrite Hsucc. simpl. unfold baked, bake_modifier.
    rewrite (mesh_of_data _ _ Hm), Hg1. cbn [data modifiers].
    rewrite modifiers_get_remove_ne, Hg2 by done. cbn [data modifiers].
    rewrite !modifiers_get_remove_ne, Hg3 by done. done. }
  assert (Hgone : forall d n, n ∈ modifiers_to_apply ->
            present n {| data := d;
                         modifiers := modifiers_remove "Subdivision"
                                        (modifiers_remove "Skin"
                                           (modifiers_remove "Mirror" (modifiers o))) |} = false).
  { intros d n Hn. unfold present. cbn [modifiers].
    change (modifiers_remove "Subdivision"
              (modifiers_remove "Skin" (modifiers_remove "Mirror" (modifiers o))))
      with (foldl (fun l n => modifiers_remove n l) (modifiers o) modifiers_to_apply).
    rewrite present_remove_foldl by done. apply bool_decide_eq_false_2. by intros [? ?]. }
  rewrite Hob in Hrun. cbn [mesh_of data] in Hrun.
  destruct Hrun as (e & r & o' & Hrun & He & Hev & Hcase).
  exists m, md1, md2, md3, e. eexists. exists o'. rewrite Hrun. unfold final, result. cbn [fst snd context calls].
  rewrite succeeded_snoc, remesh_calls_snoc, last_snoc by done.
  assert (Hobj' : object (update_object i (fun _ => o') (xray_off c)) = Some o').
  { apply object_update_object with o;
      [by rewrite active_xray_off | by rewrite objects_xray_off]. }
  repeat (split; [first [done | eassumption]|]).
  split; [intros n Hn; apply Hgone, Hn|].
  split; [done|].
  destruct (ev_raised e); destruct Hcase as [_ ->]; (split; [apply Hgone|]); done.
Qed.



(** On a mesh object the finalizer returns [FINISHED], whatever the host
    reports for the bakes and for the remesh. *)
Lemma finalizer_finishes_on_mesh v c o :
  object c = Some o -> is_Some (mesh_of o) -> result (execute v (init c)) = inr FINISHED.
Proof.
  intros Hobj Hm. apply object_inv in Hobj as (i & Ha & Hl).
  destruct (execute_run v c i o Ha Hl) as (evs & _ & _ & _ & _ & Hrun).
  assert (Hsome : is_Some (mesh_of (foldl baked o (succeeded evs)))).
  { by apply mesh_of_foldl_baked. }
  destruct Hsome as [m_b Hm_b]. rewrite Hm_b in Hrun.
  destruct Hrun as (e & r & o' & Hrun & _). by rewrite Hrun.
Qed.

(** On an object without mesh data the finalizer raises [AttributeError]. *)
Lemma finalizer_raises_without_mesh v c o :
  object c = Some o -> mesh_of o = None ->
  exists msg, result (execute v (init c)) = inl (AttributeError msg).
Proof.
  intros Hobj Hm. apply object_inv in Hobj as (i & Ha & Hl).
  destruct (execute_run v c i o Ha Hl) as (evs & _ & _ & _ & _ & Hrun).
  destruct (mesh_of (foldl baked o (succeeded evs))) as [m_b|] eqn:Hm'.
  - assert (is_Some (mesh_of o)) as [? ?] by (apply (mesh_of_foldl_baked o (succeeded evs)); eauto).
    congruence.
  - destruct Hrun as (msg & Hrun). exists msg. by rewrite Hrun.
Qed.

(** C9, at an input the operator's [poll] accepts: with an empty as the active
    object, in object-level mode, the finalizer does not return [FINISHED];
    an [AttributeError] escapes, on every host. *)
Theorem finalizer_raises_on_empty v :
  poll empty_object_context = true
  /\ exists msg, result (execute v (init empty_object_context)) = inl (AttributeError msg).
Proof.
  split; [done|]. by apply finalizer_raises_without_mesh with (o := {| data := None; modifiers := [] |}).
Qed.

(** C10: on a mesh object the finalizer makes exactly one voxel-remesh call,
    on a mesh whose remesh voxel size is [v], whether or not bakes failed; and
    when that call fails the object's mesh keeps that voxel size. *)
Theorem voxel_size_is_written v c o m :
  object c = Some o ->
  mesh_of o = Some m ->
  exists e o_call m_call,
    remesh_calls (calls (final (execute v (init c)))) = [e]
    /\ ev_object e = Some o_call
    /\ mesh_of o_call = Some m_call
    /\ remesh_voxel_size m_call = v
    /\ (forall msg, ev_raised e = Some msg ->
        object (context (final (execute v (init c)))) = Some o_call).
Proof.
  intros Hobj Hm. apply object_inv in Hobj as (i & Ha & Hl).
  destruct (execute_run v c i o Ha Hl) as (evs & _ & Hall & _ & _ & Hrun).
  assert (Hsome : is_Some (mesh_of (foldl baked o (succeeded evs)))).
  { apply mesh_of_foldl_baked. eauto. }
  destruct Hsome as [m_b Hm_b]. rewrite Hm_b in Hrun.
  destruct Hrun as (e & r & o' & Hrun & He & Hev & Hcase).
  exists e. eexists. exists (set_remesh_voxel_size v m_b).
  rewrite Hrun. unfold final. cbn [snd context calls].
  rewrite remesh_calls_snoc by done.
  repeat split; [exact Hev | done |].
  intros msg Hraised. rewrite Hraised in Hcase. destruct Hcase as [_ ->].
  apply object_update_object with o; [by rewrite active_xray_off | by rewrite objects_xray_off].
Qed.

End finalizer.

(** ** The Base Creator *)

Lemma snoc_lookup {A} (l : list A) x : (l ++ [x]) !! length l = Some x.
Proof. by rewrite list_lookup_middle. Qed.

Lemma snoc_alter {A} (f : A -> A) (l : list A) x : alter f (length l) (l ++ [x]) = l ++ [f x].
Proof.
  induction l as [|y l IH]; simpl; [done|]. by rewrite <- IH.
Qed.

Section creator.
Context `{Host}.
Import MESH_OT_PrimitiveBSphereAdd.

Lemma unique_name_fresh used n : n ∉ used -> unique_name used n = n.
Proof. intros Hn. unfold unique_name. by rewrite bool_decide_eq_false_2. Qed.

Ltac creator_simpl :=
  repeat (progress (
    unfold set_modifiers, set_data, set_mode, set_space_data, set_vertices, set_select,
      set_use_root, update_object, set_objects, object, on_active_object, mark_root,
      enter_edit_mode, select_all, to_mesh, verts_new, bmesh_new, meshes_new;
    cbn [context init reports calls items objects active mode space_data fst snd
         modifiers data name settings length app map vertices edges polygons
         remesh_voxel_size verts bm_edges faces co select use_root use_loose
         lookup list_lookup insert list_insert new_settings space_type];
    rewrite ?snoc_alter, ?snoc_lookup,
      ?bool_decide_eq_true_2, ?bool_decide_eq_false_2 by done)).

(** The creator's run, case by case on what the host reports for the three
    operators it calls. *)
Lemma creator_cases (c : Context) :
  mode c = OBJECT ->
  exists r vtx o',
    execute (init c) = r
    /\ objects (context (final r)) = objects c ++ [o']
    /\ o' = {| data := Some (MeshID {| vertices := [vtx]; edges := []; polygons := [];
                                      remesh_voxel_size := default_remesh_voxel_size |});
               modifiers := [mirror_stage; skin_stage; subdivision_stage] |}
    /\ co vtx = (0, 0, 0)%Q
    /\ active (context (final r)) = Some (length (objects c))
    /\ result r = match last (calls (final r)) ≫= ev_raised with
                  | Some msg => inl (RuntimeError msg)
                  | None => inr FINISHED
                  end
    /\ (last (calls (final r)) ≫= ev_raised = None ->
        mode (context (final r)) = EDIT_MESH /\ select vtx = true /\ use_root vtx = true)
    /\ (last (calls (final r)) ≫= ev_raised = None <->
        Forall (fun e => ev_raised e = None) (calls (final r))).
Proof.
  intros Hmode.
  unfold execute, object_data_add, context_object, obj_modifiers_new, set_use_axis,
    set_use_x_symmetry, set_use_y_symmetry, set_use_z_symmetry, set_levels, set_render_levels,
    modifier_setattr, context_space_data_type, set_show_xray.
  munfold. cbn [context init]. rewrite (bool_decide_eq_true_2 (mode c = OBJECT)) by done.
  creator_simpl.
  rewrite !unique_name_fresh by (apply (bool_decide_unpack _); by vm_compute).
  creator_simpl.
  destruct (raises mode_set_EDIT _) as [msg1|] eqn:Hr1; creator_simpl.
  { do 3 eexists. do 3 (split; [reflexivity|]). cbn. repeat split; try done.
    intros Hall. by apply Forall_inv in Hall. }
  destruct (raises select_all_SELECT _) as [msg2|] eqn:Hr2; creator_simpl.
  { do 3 eexists. do 3 (split; [reflexivity|]). cbn. repeat split; try done.
    intros Hall. by apply Forall_inv_tail, Forall_inv in Hall. }
  destruct (raises skin_root_mark _) as [msg3|] eqn:Hr3; creator_simpl.
  { do 3 eexists. do 3 (split; [reflexivity|]). cbn. repeat split; try done.
    intros Hall. by apply Forall_inv_tail, Forall_inv_tail, Forall_inv in Hall. }
  destruct (space_data c) eqn:Hsp; creator_simpl; rewrite ?Hsp; creator_simpl;
    (do 3 eexists; do 3 (split; [reflexivity|]); cbn; repeat split; try done;
     intros _; repeat constructor).
Qed.

(** C1: run in object-level mode, and whatever the host reports afterwards,
    the creator adds exactly one object, makes it the active one, and that
    object carries a mesh of one point at the local origin, without edges or
    faces, under the stack Mirror (X only), Skin (no symmetry), Subdivision
    (levels 2 and 2), in that order and under those names. *)
Theorem creator_builds_point_and_stack (c : Context) :
  mode c = OBJECT ->
  exists o' m',
    object (context (final (execute (init c)))) = Some o'
    /\ objects (context (final (execute (init c)))) = objects c ++ [o']
    /\ mesh_of o' = Some m'
    /\ map co (vertices m') = [(0, 0, 0)%Q]
    /\ edges m' = []
    /\ polygons m' = []
    /\ modifiers o'
       = [ {| name := "Mirror"; settings := MirrorModifier (true, false, false) |};
           {| name := "Skin"; settings := SkinModifier false false false |};
           {| name := "Subdivision"; settings := SubsurfModifier 2 2 |} ].
Proof.
  intros Hmode.
  destruct (creator_cases c Hmode) as (r & vtx & o' & -> & Hobjs & -> & Hco & Hact & _).
  eexists. eexists. split.
  { unfold object. rewrite Hact, Hobjs. apply snoc_lookup. }
  split; [exact Hobjs|]. repeat split. cbn. by rewrite Hco.
Qed.

(** C6: when the creator, run in object-level mode, completes, the context
    is in point-editing mode and the new object's single point is selected
    and marked root. *)
Theorem creator_leaves_root_selected_in_edit_mode (c : Context) :
  mode c = OBJECT ->
  result (execute (init c)) = inr FINISHED ->
  exists o' m' vtx,
    object (context (final (execute (init c)))) = Some o'
    /\ objects (context (final (execute (init c)))) = objects c ++ [o']
    /\ mode (context (final (execute (init c)))) = EDIT_MESH
    /\ mesh_of o' = Some m'
    /\ vertices m' = [vtx]
    /\ co vtx = (0, 0, 0)%Q
    /\ select vtx = true
    /\ use_root vtx = true.
Proof.
  intros Hobject.
  destruct (creator_cases c Hobject)
    as (r & vtx & o' & -> & Hobjs & -> & Hco & Hact & Hres & Hfin & _).
  intros Hr. rewrite Hres in Hr.
  destruct (last (calls (final r)) ≫= ev_raised) eqn:Hlast; [done|].
  destruct Hfin as (Hmode & Hsel & Hroot); [done|].
  eexists. eexists. exists vtx. split.
  { unfold object. rewrite Hact, Hobjs. apply snoc_lookup. }
  split; [exact Hobjs|]. repeat split; done.
Qed.

End creator.

(** ** The Contextual Panel *)

Section panel.
Import VIEW3D_PT_BSpheresPanel.

Lemma frame_ret {A} (a : A) : frame (mret a : M State A).
Proof. by intros s. Qed.

Lemma frame_bind {A B} (m : M State A) (k : A -> M State B) :
  frame m -> (forall a, frame (k a)) -> frame (m ≫= k).
Proof.
  intros Hm Hk s. unfold mbind, M_bind, bind, final in *.
  specialize (Hm s). destruct (m s) as [[e|a] s1]; simpl in *; [done|].
  specialize (Hk a s1). destruct (k a s1) as [x s2]. simpl in *.
  destruct Hm as (<- & <- & <-). done.
Qed.

Lemma frame_add p it : frame (add p it).
Proof. by intros s. Qed.

Lemma frame_operator_setattr h attr value : frame (operator_setattr h attr value).
Proof.
  intros s. unfold operator_setattr, final.
  destruct h as [|i]; [done|]. destruct (items s !! i) as [[p [] sc]|]; done.
Qed.

Lemma frame_set_scale_y h q : frame (set_scale_y h q).
Proof.
  intros s. unfold set_scale_y, final.
  destruct h as [|i]; [done|]. destruct (items s !! i); done.
Qed.

Lemma frame_obj_modifiers_get obj n : frame (obj_modifiers_get obj n).
Proof.
  intros s. unfold obj_modifiers_get, final. destruct obj as [i|]; [|done].
  destruct (objects (context s) !! i); done.
Qed.

Lemma frame_obj_type i : frame (obj_type i).
Proof. intros s. unfold obj_type, final. destruct (objects (context s) !! i); done. Qed.

Lemma frame_context_object : frame context_object.
Proof. by intros s. Qed.

Ltac frame_step :=
  lazymatch goal with
  | |- frame (mbind _ _) => apply frame_bind; [|intros ?]
  | |- frame (mret _) => apply frame_ret
  | |- frame (add _ _) => apply frame_add
  | |- frame (operator_setattr _ _ _) => apply frame_operator_setattr
  | |- frame (set_scale_y _ _) => apply frame_set_scale_y
  | |- frame (obj_modifiers_get _ _) => apply frame_obj_modifiers_get
  | |- frame (obj_type _) => apply frame_obj_type
  | |- frame context_object => apply frame_context_object
  | |- frame (match ?x with _ => _ end) => destruct x
  end.

Lemma frame_has_bsphere_setup obj : frame (has_bsphere_setup obj).
Proof. unfold has_bsphere_setup. repeat frame_step. Qed.

Lemma frame_draw_tools obj : frame (draw_tools obj).
Proof.
  unfold draw_tools, draw_mirror, draw_subsurf, draw_skin, draw_finish. cbv zeta.
  repeat frame_step.
Qed.

Lemma frame_draw : frame draw.
Proof.
  unfold draw, draw_create. cbv zeta.
  repeat lazymatch goal with
         | |- frame (has_bsphere_setup _) => apply frame_has_bsphere_setup
         | |- frame (draw_tools _) => apply frame_draw_tools
         | |- frame (if ?b then _ else _) => destruct b
         | |- _ => frame_step
         end.
Qed.

Lemma present_Some n o md : modifiers_get n (modifiers o) = Some md -> present n o = true.
Proof. intros Hg. unfold present. rewrite Hg. apply bool_decide_eq_true_2. eauto. Qed.

Lemma present_None n o : modifiers_get n (modifiers o) = None -> present n o = false.
Proof. intros Hg. unfold present. rewrite Hg. apply bool_decide_eq_false_2. by intros [? ?]. Qed.

Lemma snoc_insert {A} (l : list A) x y : <[length l := y]> (l ++ [x]) = l ++ [y].
Proof. induction l as [|z l IH]; simpl; [done|]. by rewrite <- IH. Qed.

Lemma controls_app l1 l2 : controls (l1 ++ l2) = controls l1 ++ controls l2.
Proof. apply omap_app. Qed.

Lemma draws_seq i o (m1 m2 : M State unit) ks1 ks2 :
  draws i o m1 ks1 -> draws i o m2 ks2 -> draws i o (m1 ;; m2) (ks1 ++ ks2).
Proof.
  intros H1 H2 s Hl. destruct (H1 s Hl) as (s1 & Hm1 & Hc1 & Hk1).
  destruct (H2 s1) as (s2 & Hm2 & Hc2 & Hk2); [by rewrite Hc1|].
  exists s2. unfold mbind, M_bind, bind. rewrite Hm1, Hm2.
  repeat split; [congruence|]. by rewrite Hk2, Hk1, app_assoc.
Qed.

Ltac draws_run :=
  munfold; unfold add, operator_setattr, set_scale_y;
  repeat (progress (cbn [context reports calls items set_items fst snd];
                    rewrite ?snoc_lookup, ?snoc_insert));
  eexists; split; [reflexivity|]; split; [reflexivity|];
  unfold set_items; cbn [items context]; rewrite !controls_app, <- ?app_assoc; reflexivity.

Lemma draw_create_run s :
  exists s',
    draw_create s = (inr tt, s')
    /\ context s' = context s
    /\ controls (items s') = controls (items s) ++ [create_control].
Proof. unfold draw_create. cbv zeta. draws_run. Qed.

Lemma draws_finish i o : draws i o draw_finish [finalize_control].
Proof. intros s _. unfold draw_finish. cbv zeta. draws_run. Qed.

Lemma draws_mirror i o box :
  draws i o (draw_mirror (Some i) box) (if present "Mirror" o then mirror_controls else []).
Proof.
  intros s Hl. unfold draw_mirror, obj_modifiers_get. munfold. rewrite Hl.
  destruct (modifiers_get "Mirror" (modifiers o)) as [md|] eqn:Hg.
  - rewrite (present_Some _ _ _ Hg), (modifiers_get_name _ _ _ Hg). draws_run.
  - rewrite (present_None _ _ Hg). exists s. by rewrite app_nil_r.
Qed.

Lemma draws_subsurf i o box :
  draws i o (draw_subsurf (Some i) box)
    (if present "Subdivision" o then subdivision_controls else []).
Proof.
  intros s Hl. unfold draw_subsurf, obj_modifiers_get. munfold. rewrite Hl.
  destruct (modifiers_get "Subdivision" (modifiers o)) as [md|] eqn:Hg.
  - rewrite (present_Some _ _ _ Hg), (modifiers_get_name _ _ _ Hg). draws_run.
  - rewrite (present_None _ _ Hg). exists s. by rewrite app_nil_r.
Qed.

Lemma draws_skin i o box :
  draws i o (draw_skin (Some i) box) (if present "Skin" o then skin_controls else []).
Proof.
  intros s Hl. unfold draw_skin, obj_modifiers_get. munfold. rewrite Hl.
  destruct (modifiers_get "Skin" (modifiers o)) as [md|] eqn:Hg.
  - rewrite (present_Some _ _ _ Hg). draws_run.
  - rewrite (present_None _ _ Hg). exists s. by rewrite app_nil_r.
Qed.

Lemma draws_tools i o :
  draws i o (draw_tools (Some i))
    ((if present "Mirror" o then mirror_controls else [])
     ++ (if present "Subdivision" o then subdivision_controls else [])
     ++ (if present "Skin" o then skin_controls else [])
     ++ [finalize_control]).
Proof.
  intros s Hl. unfold draw_tools. cbv zeta.
  unfold mbind at 1, M_bind at 1, bind at 1, add at 1. cbv beta iota.
  unfold mbind at 1, M_bind at 1, bind at 1, add at 1. cbv beta iota.
  set (s2 := set_items _ (set_items _ s)).
  destruct (draws_seq i o _ _ _ _ (draws_mirror i o (item_at (length (items s))))
              (draws_seq i o _ _ _ _ (draws_subsurf i o (item_at (length (items s))))
                 (draws_seq i o _ _ _ _ (draws_skin i o (item_at (length (items s))))
                    (draws_finish i o))) s2 Hl)
    as (s' & Hrun & Hc & Hk).
  exists s'. rewrite Hrun. repeat split; [done|].
  rewrite Hk. subst s2. cbn [items set_items]. by rewrite !controls_app, !app_nil_r.
Qed.

Lemma has_bsphere_setup_run i o s :
  objects (context s) !! i = Some o ->
  has_bsphere_setup (Some i) s = (inr (present "Skin" o || present "Mirror" o), s).
Proof.
  intros Hl. unfold has_bsphere_setup, obj_modifiers_get. munfold. rewrite Hl.
  destruct (modifiers_get "Skin" (modifiers o)) as [sk|] eqn:Hsk; cbn [truthy].
  - by rewrite (present_Some _ _ _ Hsk).
  - rewrite (present_None _ _ Hsk), Hl.
    destruct (modifiers_get "Mirror" (modifiers o)) as [mi|] eqn:Hmi; cbn [truthy].
    + by rewrite (present_Some _ _ _ Hmi).
    + by rewrite (present_None _ _ Hmi).
Qed.

(** What the panel draws, and that drawing never raises. *)
Lemma draw_run c :
  result (draw (init c)) = inr tt
  /\ rendered c =
       create_control ::
       match object c with
       | Some o =>
           if bool_decide (type o = MESH) && (present "Skin" o || present "Mirror" o) then
             (if present "Mirror" o then mirror_controls else [])
             ++ (if present "Subdivision" o then subdivision_controls else [])
             ++ (if present "Skin" o then skin_controls else [])
             ++ [finalize_control]
           else []
       | None => []
       end.
Proof.
  unfold rendered.
  destruct (draw_create_run (init c)) as (s1 & Hrun1 & Hc1 & Hk1).
  cbn [init items context] in Hc1, Hk1. unfold controls at 2 in Hk1. cbn [omap list_omap app] in Hk1.
  unfold draw, context_object. unfold mbind, M_bind, bind, gets. cbn [context init].
  rewrite Hrun1, <- Hc1.
  destruct (object (context s1)) as [o|] eqn:Hobj.
  - apply object_inv in Hobj as (i & Ha & Hl). rewrite Ha.
    unfold obj_type. rewrite Hl.
    destruct (bool_decide (type o = MESH)); cbn [andb]; [|done].
    rewrite (has_bsphere_setup_run i o s1 Hl).
    destruct (present "Skin" o || present "Mirror" o); [|done].
    destruct (draws_tools i o s1 Hl) as (s2 & Hrun2 & _ & Hk2).
    rewrite Hrun2. unfold result, final. cbn [fst snd]. by rewrite Hk2, Hk1.
  - done.
Qed.

(** C8: drawing the panel leaves the context (objects, their meshes and
    modifier stacks, mode, viewport) untouched, reports nothing and calls no
    host operator; it never raises; and drawing again on the state it left
    gives the same layout. *)
Theorem draw_is_pure_and_idempotent (s : State) (c : Context) :
  context (final (draw s)) = context s
  /\ reports (final (draw s)) = reports s
  /\ calls (final (draw s)) = calls s
  /\ result (draw (init c)) = inr tt
  /\ items (final (draw (init (context (final (draw (init c)))))))
     = items (final (draw (init c))).
Proof.
  destruct (frame_draw s) as (Hc & Hr & Hk).
  destruct (frame_draw (init c)) as (Hc' & _).
  repeat split; try done.
  - apply draw_run.
  - by rewrite Hc'.
Qed.

(** C2, as the panel does it: on a mesh-typed active object the computed
    flag is (Skin present or Mirror present); with the flag set, the controls
    of a stage are drawn exactly when the stage is present, and the Finalize
    action is drawn; with the flag clear, nothing but the create action is
    drawn, whether or not a Subdivision stage is present. *)
Theorem panel_controls (c : Context) (i : nat) (o : Object) :
  active c = Some i -> objects c !! i = Some o -> type o = MESH ->
  result (has_bsphere_setup (Some i) (init c)) = inr (present "Skin" o || present "Mirror" o)
  /\ rendered c =
       create_control ::
       (if present "Skin" o || present "Mirror" o then
          (if present "Mirror" o then mirror_controls else [])
          ++ (if present "Subdivision" o then subdivision_controls else [])
          ++ (if present "Skin" o then skin_controls else [])
          ++ [finalize_control]
        else [])
  /\ (forall stage k,
        stage ∈ ["Mirror"; "Skin"; "Subdivision"] -> k ∈ stage_controls stage ->
        k ∈ rendered c <->
        (present "Skin" o || present "Mirror" o) = true /\ present stage o = true)
  /\ (finalize_control ∈ rendered c <-> (present "Skin" o || present "Mirror" o) = true).
Proof.
  intros Ha Hl Hty.
  assert (Hrend : rendered c =
       create_control ::
       (if present "Skin" o || present "Mirror" o then
          (if present "Mirror" o then mirror_controls else [])
          ++ (if present "Subdivision" o then subdivision_controls else [])
          ++ (if present "Skin" o then skin_controls else [])
          ++ [finalize_control]
        else [])).
  { destruct (draw_run c) as [_ Hr]. rewrite Hr, (object_lookup _ _ _ Ha Hl).
    by rewrite bool_decide_eq_true_2. }
  split; [by rewrite (has_bsphere_setup_run i o (init c) Hl)|].
  split; [done|]. rewrite Hrend. clear Hrend.
  split.
  - intros stage k Hstage Hk.
    assert (Hdec : forall (l : list Control) (P : Prop),
              (bool_decide (k ∈ l) = true <-> P) -> (k ∈ l <-> P)).
    { intros l P <-. by rewrite bool_decide_eq_true. }
    repeat (apply elem_of_cons in Hstage as [->|Hstage]);
      [| | |by apply elem_of_nil in Hstage];
      (repeat (apply elem_of_cons in Hk as [->|Hk]); [..|by apply elem_of_nil in Hk]);
      destruct (present "Mirror" o), (present "Skin" o), (present "Subdivision" o);
      apply Hdec; vm_compute; intuition discriminate.
  - assert (Hdec : forall (l : list Control) (P : Prop),
              (bool_decide (finalize_control ∈ l) = true <-> P) -> (finalize_control ∈ l <-> P)).
    { intros l P <-. by rewrite bool_decide_eq_true. }
    destruct (present "Mirror" o), (present "Skin" o), (present "Subdivision" o);
      apply Hdec; vm_compute; intuition discriminate.
Qed.

End panel.

(** C2, as stated, fails: a mesh object whose only stage is Subdivision gets
    no Subdivision control, although that stage is present. *)
Lemma lone_subdivision_gets_no_control :
  ~ (forall (c : Context) (o : Object) (stage : string) (k : Control),
       object c = Some o -> type o = MESH ->
       stage ∈ ["Mirror"; "Skin"; "Subdivision"] -> k ∈ stage_controls stage ->
       (k ∈ rendered c <-> present stage o = true)).
Proof.
  intros Hclaim.
  assert (Hin : Bound "Subdivision" "levels" None ∈ rendered subdivision_only_context).
  { apply (Hclaim subdivision_only_context
             {| data := Some (MeshID single_point_mesh); modifiers := [subdivision_stage] |}
             "Subdivision"); try done.
    - apply (bool_decide_unpack _). by vm_compute.
    - apply (bool_decide_unpack _). by vm_compute. }
  apply (bool_decide_pack _) in Hin. by vm_compute in Hin.
Qed.

(** ** Registration *)

(** The sibling operator is gated: the finalizer's [poll] rejects every
    context that is not in object-level mode. *)
Lemma finalizer_poll_rejects_other_modes (inherited : Context -> bool) (c : Context) :
  mode c <> OBJECT -> enabled inherited OBJECT_OT_ApplyBSphereModifiers_class c = false.
Proof.
  intros Hm. unfold enabled. cbn. unfold OBJECT_OT_ApplyBSphereModifiers.poll.
  rewrite (bool_decide_eq_false_2 (mode c = OBJECT)) by done. apply andb_false_r.
Qed.

(** C7, at a context in point-editing mode: the creator's class defines no
    [poll], so whether it is enabled is left to the check it inherits, which
    the add-on does not make depend on the mode; where that check accepts,
    the creator is enabled and its body runs to [FINISHED], while the
    finalizer is rejected there. *)
Theorem creator_is_enabled_outside_object_mode (inherited : Context -> bool) :
  own_poll MESH_OT_PrimitiveBSphereAdd_class = None
  /\ (forall c, enabled inherited MESH_OT_PrimitiveBSphereAdd_class c = inherited c)
  /\ mode bsphere_edit_context = EDIT_MESH
  /\ enabled (fun _ => true) MESH_OT_PrimitiveBSphereAdd_class bsphere_edit_context = true
  /\ enabled (fun _ => true) OBJECT_OT_ApplyBSphereModifiers_class bsphere_edit_context = false
  /\ result <$> invoke (fun _ => true) MESH_OT_PrimitiveBSphereAdd_class
                  (MESH_OT_PrimitiveBSphereAdd.execute (H := quiet_host)) bsphere_edit_context
     = Some (inr FINISHED).
Proof. repeat split; by vm_compute. Qed.

(** ** The theorems at sample inputs *)

(** The declared default resolution lies within the declared bounds. *)
Lemma voxel_size_default_in_range :
  (OBJECT_OT_ApplyBSphereModifiers.min OBJECT_OT_ApplyBSphereModifiers.voxel_size
   <= OBJECT_OT_ApplyBSphereModifiers.default OBJECT_OT_ApplyBSphereModifiers.voxel_size
   <= OBJECT_OT_ApplyBSphereModifiers.max OBJECT_OT_ApplyBSphereModifiers.voxel_size)%Q.
Proof. split; by vm_compute. Qed.

(** The fixed order, on a host where baking "Skin" fails. *)
Lemma finalizer_bakes_in_fixed_order_witness :
  object bsphere_context = Some bsphere_object
  /\ exists o',
       object (context (final (OBJECT_OT_ApplyBSphereModifiers.execute (H := skin_fails_host)
                                 0.05 (init bsphere_context)))) = Some o'
       /\ attempted (calls (final (OBJECT_OT_ApplyBSphereModifiers.execute (H := skin_fails_host)
                                     0.05 (init bsphere_context))))
          = filter (fun n => present n bsphere_object) ["Mirror"; "Skin"; "Subdivision"]
       /\ warnings (reports (final (OBJECT_OT_ApplyBSphereModifiers.execute (H := skin_fails_host)
                                      0.05 (init bsphere_context))))
          = map warning (failed (calls (final (OBJECT_OT_ApplyBSphereModifiers.execute
                                                 (H := skin_fails_host) 0.05
                                                 (init bsphere_context)))))
       /\ modifiers o'
          = foldl (fun l n => modifiers_remove n l) (modifiers bsphere_object)
              (succeeded (calls (final (OBJECT_OT_ApplyBSphereModifiers.execute
                                          (H := skin_fails_host) 0.05 (init bsphere_context)))))
       /\ (forall n,
             n ∈ failed (calls (final (OBJECT_OT_ApplyBSphereModifiers.execute
                                         (H := skin_fails_host) 0.05 (init bsphere_context)))) ->
             present n o' = true)
       /\ (NoDup (map name (modifiers bsphere_object)) ->
           forall n,
             n ∈ succeeded (calls (final (OBJECT_OT_ApplyBSphereModifiers.execute
                                            (H := skin_fails_host) 0.05 (init bsphere_context)))) ->
             present n o' = false).
Proof.
  split; [reflexivity|].
  apply (@finalizer_bakes_in_fixed_order skin_fails_host 0.05 bsphere_context bsphere_object).
  reflexivity.
Defined.

(** A successful run at the default resolution. *)
Lemma finalizer_success_witness :
  object bsphere_context = Some bsphere_object
  /\ NoDup (map name (modifiers bsphere_object))
  /\ present "Mirror" bsphere_object = true
  /\ present "Skin" bsphere_object = true
  /\ present "Subdivision" bsphere_object = true
  /\ (OBJECT_OT_ApplyBSphereModifiers.min OBJECT_OT_ApplyBSphereModifiers.voxel_size <= 0.05
      <= OBJECT_OT_ApplyBSphereModifiers.max OBJECT_OT_ApplyBSphereModifiers.voxel_size)%Q
  /\ failed (calls (final (OBJECT_OT_ApplyBSphereModifiers.execute (H := quiet_host)
                             0.05 (init bsphere_context)))) = []
  /\ exists m md1 md2 md3 e o_call o',
       mesh_of bsphere_object = Some m
       /\ modifiers_get "Mirror" (modifiers bsphere_object) = Some md1
       /\ modifiers_get "Skin" (modifiers bsphere_object) = Some md2
       /\ modifiers_get "Subdivision" (modifiers bsphere_object) = Some md3
       /\ result (OBJECT_OT_ApplyBSphereModifiers.execute (H := quiet_host)
                    0.05 (init bsphere_context)) = inr FINISHED
       /\ succeeded (calls (final (OBJECT_OT_ApplyBSphereModifiers.execute (H := quiet_host)
                                     0.05 (init bsphere_context))))
          = ["Mirror"; "Skin"; "Subdivision"]
       /\ remesh_calls (calls (final (OBJECT_OT_ApplyBSphereModifiers.execute (H := quiet_host)
                                        0.05 (init bsphere_context)))) = [e]
       /\ last (calls (final (OBJECT_OT_ApplyBSphereModifiers.execute (H := quiet_host)
                                0.05 (init bsphere_context)))) = Some e
       /\ ev_object e = Some o_call
       /\ mesh_of o_call
          = Some (set_remesh_voxel_size 0.05
                    (@modifier_eval quiet_host md3
                       (@modifier_eval quiet_host md2 (@modifier_eval quiet_host md1 m))))
       /\ remesh_voxel_size <$> mesh_of o_call = Some 0.05%Q
       /\ (forall n, n ∈ OBJECT_OT_ApplyBSphereModifiers.modifiers_to_apply ->
                     present n o_call = false)
       /\ object (context (final (OBJECT_OT_ApplyBSphereModifiers.execute (H := quiet_host)
                                    0.05 (init bsphere_context)))) = Some o'
       /\ (forall n, n ∈ OBJECT_OT_ApplyBSphereModifiers.modifiers_to_apply ->
                     present n o' = false)
       /\ (ev_raised e = None ->
           mesh_of o'
           = Some (@voxel_remesh_eval quiet_host
                     (set_remesh_voxel_size 0.05
                        (@modifier_eval quiet_host md3
                       (@modifier_eval quiet_host md2 (@modifier_eval quiet_host md1 m)))))).
Proof.
  assert (Hnd : NoDup (map name (modifiers bsphere_object))).
  { apply (bool_decide_unpack _). vm_compute. reflexivity. }
  assert (Hrange : (OBJECT_OT_ApplyBSphereModifiers.min OBJECT_OT_ApplyBSphereModifiers.voxel_size
                    <= 0.05
                    <= OBJECT_OT_ApplyBSphereModifiers.max
                         OBJECT_OT_ApplyBSphereModifiers.voxel_size)%Q).
  { split; vm_compute; discriminate. }
  repeat (split; [first [reflexivity | exact Hnd | exact Hrange]|]).
  apply (@finalizer_success quiet_host 0.05 bsphere_context bsphere_object);
    first [reflexivity | exact Hnd | exact Hrange].
Defined.


(** The creator in object-level mode on a scene that already holds a bSphere,
    with a host on which entering edit mode fails. *)
Lemma creator_builds_point_and_stack_witness :
  mode bsphere_context = OBJECT
  /\ exists o' m',
       object (context (final (MESH_OT_PrimitiveBSphereAdd.execute (H := edit_mode_fails_host)
                                 (init bsphere_context)))) = Some o'
       /\ objects (context (final (MESH_OT_PrimitiveBSphereAdd.execute (H := edit_mode_fails_host)
                                     (init bsphere_context))))
          = objects bsphere_context ++ [o']
       /\ mesh_of o' = Some m'
       /\ map co (vertices m') = [(0, 0, 0)%Q]
       /\ edges m' = []
       /\ polygons m' = []
       /\ modifiers o'
          = [ {| name := "Mirror"; settings := MirrorModifier (true, false, false) |};
              {| name := "Skin"; settings := SkinModifier false false false |};
              {| name := "Subdivision"; settings := SubsurfModifier 2 2 |} ].
Proof.
  split; [reflexivity|].
  apply (@creator_builds_point_and_stack edit_mode_fails_host bsphere_context).
  reflexivity.
Defined.

(** The creator on an empty scene, in object-level mode, with a host that
    reports no failure. *)
Lemma creator_leaves_root_selected_in_edit_mode_witness :
  mode no_object_context = OBJECT
  /\ result (MESH_OT_PrimitiveBSphereAdd.execute (H := quiet_host) (init no_object_context))
     = inr FINISHED
  /\ exists o' m' vtx,
       object (context (final (MESH_OT_PrimitiveBSphereAdd.execute (H := quiet_host)
                                 (init no_object_context)))) = Some o'
       /\ objects (context (final (MESH_OT_PrimitiveBSphereAdd.execute (H := quiet_host)
                                     (init no_object_context))))
          = objects no_object_context ++ [o']
       /\ mode (context (final (MESH_OT_PrimitiveBSphereAdd.execute (H := quiet_host)
                                  (init no_object_context)))) = EDIT_MESH
       /\ mesh_of o' = Some m'
       /\ vertices m' = [vtx]
       /\ co vtx = (0, 0, 0)%Q
       /\ select vtx = true
       /\ use_root vtx = true.
Proof.
  split; [reflexivity|]. split; [reflexivity|].
  apply (@creator_leaves_root_selected_in_edit_mode quiet_host no_object_context);
    reflexivity.
Defined.

(** The resolution 0.25 written on a run whose voxel remesh fails. *)
Lemma voxel_size_is_written_witness :
  object bsphere_context = Some bsphere_object
  /\ mesh_of bsphere_object = Some single_point_mesh
  /\ exists e o_call m_call,
       remesh_calls (calls (final (OBJECT_OT_ApplyBSphereModifiers.execute
                                     (H := remesh_fails_host) 0.25 (init bsphere_context))))
       = [e]
       /\ ev_object e = Some o_call
       /\ mesh_of o_call = Some m_call
       /\ remesh_voxel_size m_call = 0.25%Q
       /\ (forall msg, ev_raised e = Some msg ->
           object (context (final (OBJECT_OT_ApplyBSphereModifiers.execute
                                     (H := remesh_fails_host) 0.25 (init bsphere_context))))
           = Some o_call).
Proof.
  split; [reflexivity|]. split; [reflexivity|].
  apply (@voxel_size_is_written remesh_fails_host 0.25 bsphere_context bsphere_object
           single_point_mesh); reflexivity.
Defined.

(** The panel on the object the creator leaves. *)
Lemma panel_controls_witness :
  active bsphere_edit_context = Some 0%nat
  /\ objects bsphere_edit_context !! 0%nat = Some bsphere_object
  /\ type bsphere_object = MESH
  /\ result (VIEW3D_PT_BSpheresPanel.has_bsphere_setup (Some 0%nat) (init bsphere_edit_context))
     = inr (present "Skin" bsphere_object || present "Mirror" bsphere_object)
  /\ rendered bsphere_edit_context =
       create_control ::
       (if present "Skin" bsphere_object || present "Mirror" bsphere_object then
          (if present "Mirror" bsphere_object then mirror_controls else [])
          ++ (if present "Subdivision" bsphere_object then subdivision_controls else [])
          ++ (if present "Skin" bsphere_object then skin_controls else [])
          ++ [finalize_control]
        else [])
  /\ (forall stage k,
        stage ∈ ["Mirror"; "Skin"; "Subdivision"] -> k ∈ stage_controls stage ->
        k ∈ rendered bsphere_edit_context <->
        (present "Skin" bsphere_object || present "Mirror" bsphere_object) = true
        /\ present stage bsphere_object = true)
  /\ (finalize_control ∈ rendered bsphere_edit_context <->
      (present "Skin" bsphere_object || present "Mirror" bsphere_object) = true).
Proof.
  do 3 (split; [reflexivity|]).
  apply (panel_controls bsphere_edit_context 0%nat bsphere_object); reflexivity.
Defined.

(** ** Further properties of the finalizer *)

Lemma modifiers_remove_sublist n l : modifiers_remove n l `sublist_of` l.
Proof.
  induction l as [|md l IH]; simpl; [done|].
  case_bool_decide; [by apply sublist_cons | by apply sublist_skip].
Qed.

Lemma filter_modifiers_remove (P : Modifier -> Prop) `{!forall md, Decision (P md)} n l :
  (forall md, P md -> name md <> n) ->
  filter P (modifiers_remove n l) = filter P l.
Proof.
  intros HP. induction l as [|md l IH]; simpl; [done|].
  case_bool_decide as Hn.
  - rewrite filter_cons_False; [done|]. intros Hmd. by apply (HP md).
  - by rewrite !filter_cons, IH.
Qed.

Section finalizer_frame.
Context `{Host}.
Import OBJECT_OT_ApplyBSphereModifiers.

Lemma modifiers_baked_cases o n :
  modifiers (baked o n) = modifiers o \/ modifiers (baked o n) = modifiers_remove n (modifiers o).
Proof.
  unfold baked, bake_modifier. destruct (data o) as [[]|]; eauto.
  destruct (modifiers_get n (modifiers o)); eauto.
Qed.

Lemma foldl_baked_sublist o ns : modifiers (foldl baked o ns) `sublist_of` modifiers o.
Proof.
  revert o. induction ns as [|n ns IH]; intros o; simpl; [done|].
  etrans; [apply IH|]. destruct (modifiers_baked_cases o n) as [-> | ->]; [done|].
  apply modifiers_remove_sublist.
Qed.

Lemma foldl_baked_others (P : Modifier -> Prop) `{!forall md, Decision (P md)} o ns :
  (forall md n, P md -> n ∈ ns -> name md <> n) ->
  filter P (modifiers (foldl baked o ns)) = filter P (modifiers o).
Proof.
  revert o. induction ns as [|n ns IH]; intros o HP; simpl; [done|].
  rewrite IH by (intros md n' Hmd Hn'; apply HP; [done | by right]).
  destruct (modifiers_baked_cases o n) as [-> | ->]; [done|].
  apply filter_modifiers_remove. intros md Hmd. apply HP; [done | by left].
Qed.

(** The context a run of the finalizer ends in, and its active object. *)
Lemma execute_final_context v c i o :
  active c = Some i -> objects c !! i = Some o ->
  exists evs o',
    context (final (execute v (init c))) = update_object i (fun _ => o') (xray_off c)
    /\ attempted evs = filter (fun n => present n o) modifiers_to_apply
    /\ (succeeded evs <> [] -> is_Some (mesh_of o))
    /\ modifiers o' = modifiers (foldl baked o (succeeded evs))
    /\ attempted (calls (final (execute v (init c)))) = attempted evs
    /\ succeeded (calls (final (execute v (init c)))) = succeeded evs
    /\ failed (calls (final (execute v (init c)))) = failed evs.
Proof.
  intros Ha Hl.
  destruct (execute_run v c i o Ha Hl) as (evs & Hatt & Hall & Hmesh & _ & Hrun).
  exists evs. destruct (mesh_of (foldl baked o (succeeded evs))) as [m_b|].
  - destruct Hrun as (e & r & o' & Hrun & He & _ & Hcase).
    exists o'. rewrite Hrun. unfold final. cbn [snd context calls].
    rewrite attempted_snoc, succeeded_snoc, failed_snoc by done.
    repeat split; try done.
    destruct (ev_raised e); by destruct Hcase as [_ ->].
  - destruct Hrun as (msg & Hrun). exists (foldl baked o (succeeded evs)).
    rewrite Hrun. by unfold final.
Qed.

(** X1: the finalizer leaves the layout of the scene alone: the same object
    stays active, the mode is kept, no object is added or dropped, every
    other object keeps its modifier stack and its type, and the x-ray flag is
    off afterwards in a 3D viewport (any other space is left alone).  Nothing
    is said of the data of the other objects, which the writes through
    [obj.data] reach where a data-block is shared. *)
Theorem finalizer_keeps_scene_layout v c i o :
  active c = Some i -> objects c !! i = Some o ->
  active (context (final (execute v (init c)))) = Some i
  /\ mode (context (final (execute v (init c)))) = mode c
  /\ length (objects (context (final (execute v (init c))))) = length (objects c)
  /\ (forall j, j <> i ->
        modifiers <$> objects (context (final (execute v (init c)))) !! j
        = modifiers <$> objects c !! j)
  /\ (forall j, j <> i ->
        type <$> objects (context (final (execute v (init c)))) !! j
        = type <$> objects c !! j)
  /\ space_data (context (final (execute v (init c))))
     = match space_data c with
       | SpaceView3D _ => SpaceView3D false
       | sp => sp
       end.
Proof.
  intros Ha Hl. destruct (execute_final_context v c i o Ha Hl) as (evs & o' & -> & _).
  unfold update_object, set_objects. cbn [active mode objects space_data].
  rewrite active_xray_off, mode_xray_off, objects_xray_off.
  repeat split; try done.
  - apply length_alter.
  - intros j Hj. rewrite list_lookup_alter_ne; [done | congruence].
  - intros j Hj. rewrite list_lookup_alter_ne; [done | congruence].
  - unfold xray_off. by destruct (space_data c) eqn:Hsp.
Qed.

(** X2: the finalizer never adds or reorders stages, and it never removes a
    stage whose name is not "Mirror", "Skin" or "Subdivision": the stack left
    is a sub-list of the stack found, and the stages of other names are all
    still there, in their order. *)
Theorem finalizer_keeps_other_stages v c o :
  object c = Some o ->
  exists o',
    object (context (final (execute v (init c)))) = Some o'
    /\ modifiers o' `sublist_of` modifiers o
    /\ filter (fun md => name md ∉ modifiers_to_apply) (modifiers o')
       = filter (fun md => name md ∉ modifiers_to_apply) (modifiers o).
Proof.
  intros Hobj. apply object_inv in Hobj as (i & Ha & Hl).
  destruct (execute_final_context v c i o Ha Hl) as (evs & o' & -> & Hatt & _ & Hmods & _).
  exists o'. split.
  { apply object_update_object with o;
      [by rewrite active_xray_off | by rewrite objects_xray_off]. }
  rewrite Hmods. split; [apply foldl_baked_sublist|].
  apply foldl_baked_others. intros md n Hmd Hn Heq. apply Hmd. rewrite Heq.
  assert (Hin : n ∈ attempted evs) by (apply attempted_split; eauto).
  rewrite Hatt in Hin. by apply list_elem_of_filter in Hin as [_ ?].
Qed.

(** X3: on a mesh object the host calls are the bakes followed by the one
    voxel-remesh call, and the messages reported are one warning per failed
    bake, in call order, followed by exactly one closing message: the [INFO]
    success message when the remesh succeeded, also when bakes failed, and
    the [ERROR] with the host's message when it failed. *)
Theorem finalizer_reports_every_outcome v c o :
  object c = Some o -> is_Some (mesh_of o) ->
  exists evs e,
    calls (final (execute v (init c))) = evs ++ [e]
    /\ Forall (fun e => is_Some (applied e)) evs
    /\ ev_call e = voxel_remesh
    /\ reports (final (execute v (init c)))
       = map warning (failed evs)
         ++ [match ev_raised e with
             | Some msg => (ERROR, "Remesh failed: " +:+ msg)
             | None => (INFO, "bSphere mesh applied and remeshed.")
             end].
Proof.
  intros Hobj Hm. apply object_inv in Hobj as (i & Ha & Hl).
  destruct (execute_run v c i o Ha Hl) as (evs & _ & Hall & _ & _ & Hrun).
  assert (Hsome : is_Some (mesh_of (foldl baked o (succeeded evs)))).
  { by apply mesh_of_foldl_baked. }
  destruct Hsome as [m_b Hm_b]. rewrite Hm_b in Hrun.
  destruct Hrun as (e & r & o' & Hrun & He & _ & Hcase).
  exists evs, e. rewrite Hrun. unfold final. cbn [snd calls reports].
  repeat split; try done.
  destruct (ev_raised e); by destruct Hcase as [-> _].
Qed.

(** X4: the finalizer does not check that the object is a bSphere.  On a mesh
    without any of the three named stages it bakes nothing and warns of
    nothing, writes the voxel size and calls the voxel remesh on the mesh as
    it is, and returns [FINISHED] with the stack untouched. *)
Theorem finalizer_on_plain_mesh v c o m :
  object c = Some o -> mesh_of o = Some m ->
  (forall n, n ∈ modifiers_to_apply -> present n o = false) ->
  exists e o',
    result (execute v (init c)) = inr FINISHED
    /\ calls (final (execute v (init c))) = [e]
    /\ ev_call e = voxel_remesh
    /\ ev_object e = Some (set_data (Some (MeshID (set_remesh_voxel_size v m))) o)
    /\ warnings (reports (final (execute v (init c)))) = []
    /\ object (context (final (execute v (init c)))) = Some o'
    /\ modifiers o' = modifiers o.
Proof.
  intros Hobj Hm Habs. apply object_inv in Hobj as (i & Ha & Hl).
  destruct (execute_run v c i o Ha Hl) as (evs & Hatt & Hall & _ & _ & Hrun).
  assert (Hnil : evs = []).
  { assert (Hatt' : attempted evs = []).
    { rewrite Hatt. unfold modifiers_to_apply in *.
      rewrite !filter_cons, filter_nil.
      rewrite !Habs by (apply (bool_decide_unpack _); by vm_compute). done. }
    destruct evs as [|e0 evs]; [done|]. apply Forall_inv in Hall as [n Hn].
    unfold attempted in Hatt'. simpl in Hatt'. by rewrite Hn in Hatt'. }
  subst evs. cbn [succeeded failed omap list_omap foldl map app] in Hrun.
  rewrite Hm in Hrun. destruct Hrun as (e & r & o' & Hrun & He & Hev & Hcase).
  exists e, o'. rewrite Hrun. unfold final, result. cbn [fst snd calls reports context].
  assert (Hobj' : object (update_object i (fun _ => o') (xray_off c)) = Some o').
  { apply object_update_object with o;
      [by rewrite active_xray_off | by rewrite objects_xray_off]. }
  repeat split; try done.
  - destruct (ev_raised e); by destruct Hcase as [-> _].
  - destruct (ev_raised e); by destruct Hcase as [_ ->].
Qed.

(** X5: a second run retries exactly the stages whose bake failed in the
    first.  With unique stage names, the names the finalizer asks the host to
    bake when run again on the context it left are the names whose bake
    failed: a baked stage is gone, an absent one stays absent. *)
Theorem finalizer_rerun_retries_failed v1 v2 c o n :
  object c = Some o -> NoDup (map name (modifiers o)) ->
  n ∈ attempted (calls (final (execute v2 (init (context (final (execute v1 (init c)))))))) <->
  n ∈ failed (calls (final (execute v1 (init c)))).
Proof.
  intros Hobj Hnd. apply object_inv in Hobj as (i & Ha & Hl).
  destruct (execute_final_context v1 c i o Ha Hl)
    as (evs & o' & Hc1 & Hatt & Hmesh & Hmods & _ & _ & Hfailed).
  rewrite Hc1, Hfailed.
  assert (Ha1 : active (update_object i (fun _ => o') (xray_off c)) = Some i).
  { cbn. by rewrite active_xray_off. }
  assert (Hl1 : objects (update_object i (fun _ => o') (xray_off c)) !! i = Some o').
  { apply objects_update_object with o. by rewrite objects_xray_off. }
  destruct (execute_final_context v2 _ i o' Ha1 Hl1) as (evs2 & _ & _ & Hatt2 & _ & _ & -> & _).
  rewrite Hatt2. rewrite list_elem_of_filter.
  assert (Hpres : present n o' = present n (foldl baked o (succeeded evs))).
  { unfold present. by rewrite Hmods. }
  assert (Hndatt : NoDup (attempted evs)).
  { rewrite Hatt. apply NoDup_filter. apply (bool_decide_unpack _). by vm_compute. }
  split.
  - intros [Hp Hn]. rewrite Hpres in Hp. apply Is_true_true in Hp.
    assert (Hpo : present n o = true).
    { apply bool_decide_eq_true in Hp as [md Hmd]. apply bool_decide_eq_true.
      destruct (modifiers_get n (modifiers o)) as [md0|] eqn:Hg; [eauto|].
      apply modifiers_get_None in Hg. exfalso. apply Hg.
      assert (Hin : n ∈ map name (modifiers (foldl baked o (succeeded evs)))).
      { destruct (decide (n ∈ map name (modifiers (foldl baked o (succeeded evs)))))
          as [?|Hnot]; [done|]. apply modifiers_get_None in Hnot. congruence. }
      apply list_elem_of_fmap in Hin as (md' & -> & Hin').
      apply list_elem_of_fmap. exists md'. split; [done|].
      eapply elem_of_sublist; [exact Hin' | apply foldl_baked_sublist]. }
    assert (Hin : n ∈ attempted evs).
    { rewrite Hatt. apply list_elem_of_filter. split; [by apply Is_true_true | done]. }
    apply attempted_split in Hin as [Hs|Hf]; [|done].
    exfalso. assert (Hm : is_Some (mesh_of o)).
    { apply Hmesh. intros Hnil. rewrite Hnil in Hs. by apply elem_of_nil in Hs. }
    unfold present in Hp. rewrite modifiers_foldl_baked in Hp by done.
    rewrite present_remove_foldl in Hp by done.
    apply bool_decide_eq_true in Hp as [? ?]. done.
  - intros Hf.
    assert (Hin : n ∈ attempted evs) by (apply attempted_split; eauto).
    rewrite Hatt in Hin. apply list_elem_of_filter in Hin as [Hp Hn].
    split; [|done]. rewrite Hpres, present_foldl_baked; [done|].
    intros Hs. by apply (succeeded_failed_disjoint evs n).
Qed.

(** X15: with an active object, the finalizer returns [FINISHED] exactly when
    that object carries mesh data, whatever the host reports for the bakes
    and for the remesh; on any other object an exception escapes. *)
Theorem finalizer_finishes_iff_mesh v c o :
  object c = Some o ->
  result (execute v (init c)) = inr FINISHED <-> is_Some (mesh_of o).
Proof.
  intros Hobj. split.
  - intros Hres. destruct (mesh_of o) as [m|] eqn:Hm; [eauto|].
    destruct (finalizer_raises_without_mesh v c o Hobj Hm) as [msg Hmsg]. congruence.
  - by apply finalizer_finishes_on_mesh.
Qed.

End finalizer_frame.

(** ** Further properties of the creator *)

Section creator_more.
Context `{Host}.

(** What the add-object helper leaves: an active object that carries mesh
    data, in the space the run started in. *)
Lemma object_data_add_cases (c : Context) (mesh : Mesh) :
  exists c1 i o1 m1,
    object_data_add mesh (init c) = (inr tt, init c1)
    /\ active c1 = Some i
    /\ objects c1 !! i = Some o1
    /\ data o1 = Some (MeshID m1)
    /\ space_data c1 = space_data c.
Proof.
  assert (Hnew : forall md,
    exists c1 i o1 m1,
      (@inr Exception unit tt,
       set_context
         {| objects := objects c ++ [{| data := Some (MeshID mesh); modifiers := [] |}];
            active := Some (length (objects c)); mode := md; space_data := space_data c |}
         (init c)) = (inr tt, init c1)
      /\ active c1 = Some i
      /\ objects c1 !! i = Some o1
      /\ data o1 = Some (MeshID m1)
      /\ space_data c1 = space_data c).
  { intros md. do 4 eexists. split; [reflexivity|]. cbn [active objects space_data].
    split; [reflexivity|]. split; [apply snoc_lookup|]. by split. }
  unfold object_data_add, modify. cbn [context init].
  destruct (bool_decide (mode c = OBJECT)); [apply Hnew|].
  destruct (data_add_eval c mesh) as [md|m']; [apply Hnew|].
  destruct (active c) as [i|] eqn:Ha; [|apply Hnew].
  destruct (object c) as [[[[m0| | |]|] mods]|] eqn:Hobj; try apply Hnew.
  unfold object in Hobj. rewrite Ha in Hobj.
  do 4 eexists. split; [reflexivity|]. unfold update_object, set_objects.
  cbn [active objects space_data]. split; [exact Ha|].
  split; [by apply lookup_alter_const with {| data := Some (MeshID m0); modifiers := mods |}|].
  by split.
Qed.

(** One step of the creator's run on the active object [o1] behind handle
    [i]. *)
Ltac creator_step :=
  repeat (progress (
    unfold set_modifiers, set_data, set_mode, set_space_data, set_vertices, set_select,
      set_use_root, update_object, set_objects, object, on_active_object, mark_root,
      enter_edit_mode, select_all;
    cbn [context init reports calls items objects active mode space_data fst snd
         modifiers data name settings new_settings space_type
         fmap option_fmap option_map];
    repeat match goal with
           | Ha : active _ = Some _ |- _ => rewrite Ha
           | Hl : objects _ !! _ = Some _ |- _ => rewrite Hl
           | Hd : data _ = Some (MeshID _) |- _ => rewrite Hd
           end;
    rewrite ?alter_const_twice, ?list_lookup_alter_eq, ?snoc_lookup,
      ?snoc_insert, ?bool_decide_eq_true_2, ?bool_decide_eq_false_2 by done)).

(** The creator's run once more, for what it reports, calls and does to the
    viewport. *)
Lemma creator_effects (c : Context) :
  exists r,
    MESH_OT_PrimitiveBSphereAdd.execute (init c) = r
    /\ reports (final r) = []
    /\ map ev_call (calls (final r))
       `prefix_of` [mode_set_EDIT; select_all_SELECT; skin_root_mark]
    /\ (result r = inr FINISHED
        /\ map ev_call (calls (final r)) = [mode_set_EDIT; select_all_SELECT; skin_root_mark]
        /\ Forall (fun e => ev_raised e = None) (calls (final r))
        /\ space_data (context (final r)) = space_data (xray_on c)
        \/ exists msg e,
             result r = inl (RuntimeError msg)
             /\ last (calls (final r)) = Some e
             /\ ev_raised e = Some msg
             /\ space_data (context (final r)) = space_data c).
Proof.
  unfold MESH_OT_PrimitiveBSphereAdd.execute. cbv zeta.
  destruct (object_data_add_cases c
              (MESH_OT_PrimitiveBSphereAdd.to_mesh
                 (MESH_OT_PrimitiveBSphereAdd.verts_new (0, 0, 0)%Q
                    MESH_OT_PrimitiveBSphereAdd.bmesh_new)
                 MESH_OT_PrimitiveBSphereAdd.meshes_new))
    as (c1 & i & o1 & m1 & Hadd & Ha & Hl & Hd & Hsp).
  unfold mbind at 1. unfold M_bind at 1. unfold bind at 1. rewrite Hadd. clear Hadd.
  unfold context_object,
    MESH_OT_PrimitiveBSphereAdd.obj_modifiers_new, MESH_OT_PrimitiveBSphereAdd.set_use_axis,
    MESH_OT_PrimitiveBSphereAdd.set_use_x_symmetry, MESH_OT_PrimitiveBSphereAdd.set_use_y_symmetry,
    MESH_OT_PrimitiveBSphereAdd.set_use_z_symmetry, MESH_OT_PrimitiveBSphereAdd.set_levels,
    MESH_OT_PrimitiveBSphereAdd.set_render_levels, MESH_OT_PrimitiveBSphereAdd.modifier_setattr,
    context_space_data_type, set_show_xray, xray_on.
  munfold.
  creator_step.
  destruct (raises mode_set_EDIT _) as [msg1|] eqn:Hr1.
  { eexists. split; [reflexivity|].
    cbn [final result fst snd reports calls context space_data map ev_call ev_raised last].
    split; [done|]. split; [by eexists|]. right. by do 2 eexists. }
  creator_step.
  destruct (raises select_all_SELECT _) as [msg2|] eqn:Hr2.
  { eexists. split; [reflexivity|].
    cbn [final result fst snd reports calls context space_data map ev_call ev_raised last app].
    split; [done|]. split; [by eexists|]. right. by do 2 eexists. }
  creator_step.
  destruct (raises skin_root_mark _) as [msg3|] eqn:Hr3.
  { eexists. split; [reflexivity|].
    cbn [final result fst snd reports calls context space_data map ev_call ev_raised last app].
    split; [done|]. split; [by eexists|]. right. by do 2 eexists. }
  creator_step.
  rewrite Hsp.
  destruct (space_data c) eqn:Hs; creator_step; rewrite ?Hsp, ?Hs;
    (eexists; split; [reflexivity|];
     cbn [final result fst snd reports calls context space_data map ev_call ev_raised last app];
     split; [done|]; split; [by exists []|];
     left; repeat split; try done; repeat constructor).
Qed.


(** The creator returns [FINISHED] exactly when none of the three host
    operators it calls reports a failure. *)
Lemma creator_finishes_iff (c : Context) :
  result (MESH_OT_PrimitiveBSphereAdd.execute (init c)) = inr FINISHED
  <-> Forall (fun e => ev_raised e = None)
        (calls (final (MESH_OT_PrimitiveBSphereAdd.execute (init c)))).
Proof.
  destruct (creator_effects c) as (r & -> & _ & _ & Hcase).
  destruct Hcase as [(Hres & _ & Hall & _)|(msg & e & Hres & Hlast & Hraised & _)].
  - by split.
  - split; [congruence|]. intros Hall. rewrite Forall_forall in Hall.
    apply last_Some_elem_of in Hlast. apply Hall in Hlast. congruence.
Qed.

(** X6: the creator handles no failure.  It reports nothing; it calls the
    host operators in the order mode_set, select_all, skin_root_mark and
    stops at the first that fails; and it either returns [FINISHED] or lets
    the [RuntimeError] of the failed (last) call escape with the host's
    message, the viewport left as it was. *)
Theorem creator_failure_escapes (c : Context) :
  reports (final (MESH_OT_PrimitiveBSphereAdd.execute (init c))) = []
  /\ map ev_call (calls (final (MESH_OT_PrimitiveBSphereAdd.execute (init c))))
     `prefix_of` [mode_set_EDIT; select_all_SELECT; skin_root_mark]
  /\ (result (MESH_OT_PrimitiveBSphereAdd.execute (init c)) = inr FINISHED
      \/ exists msg e,
           result (MESH_OT_PrimitiveBSphereAdd.execute (init c)) = inl (RuntimeError msg)
           /\ last (calls (final (MESH_OT_PrimitiveBSphereAdd.execute (init c)))) = Some e
           /\ ev_raised e = Some msg
           /\ space_data (context (final (MESH_OT_PrimitiveBSphereAdd.execute (init c))))
              = space_data c).
Proof.
  destruct (creator_effects c) as (r & -> & Hrep & Hpre & Hcase).
  repeat split; try done. destruct Hcase as [(Hres & _)|Hfail]; [by left | by right].
Qed.

(** X7: when the creator completes it has called exactly the three host
    operators mode_set, select_all, skin_root_mark, in that order and all
    without failure, and the x-ray flag of a 3D viewport is on; any other
    space is left as it was. *)
Theorem creator_completion (c : Context) :
  result (MESH_OT_PrimitiveBSphereAdd.execute (init c)) = inr FINISHED ->
  map ev_call (calls (final (MESH_OT_PrimitiveBSphereAdd.execute (init c))))
  = [mode_set_EDIT; select_all_SELECT; skin_root_mark]
  /\ Forall (fun e => ev_raised e = None)
       (calls (final (MESH_OT_PrimitiveBSphereAdd.execute (init c))))
  /\ space_data (context (final (MESH_OT_PrimitiveBSphereAdd.execute (init c))))
     = match space_data c with
       | SpaceView3D _ => SpaceView3D true
       | sp => sp
       end.
Proof.
  destruct (creator_effects c) as (r & -> & _ & _ & Hcase). intros Hres.
  destruct Hcase as [(_ & Hops & Hall & Hsp)|(msg & e & Hfail & _)]; [|congruence].
  repeat split; try done. rewrite Hsp. unfold xray_on. by destruct (space_data c) eqn:Hs.
Qed.

(** X8: after the creator has run in object-level mode (where the add-object
    helper makes a new object), and whatever the host then reports, the panel
    shows the create action, the three Mirror toggles, the Subdivision level,
    the three Skin actions and the Finalize action, in that order. *)
Theorem panel_after_creator (c : Context) :
  mode c = OBJECT ->
  rendered (context (final (MESH_OT_PrimitiveBSphereAdd.execute (init c))))
  = create_control :: mirror_controls ++ subdivision_controls ++ skin_controls
      ++ [finalize_control].
Proof.
  intros Hmode.
  destruct (creator_cases c Hmode) as (r & vtx & o' & -> & Hobjs & -> & _ & Hact & _).
  destruct (draw_run (context (final r))) as [_ ->].
  unfold object. rewrite Hact, Hobjs, snoc_lookup. done.
Qed.

(** X9: a creator run in object-level mode that completes leaves the
    finalizer disabled; once the user is back in object-level mode the
    finalizer is enabled and asks the host to bake exactly the three stages
    the creator installed, in stack order. *)
Theorem finalizer_after_creator (c : Context) (v : Q) :
  mode c = OBJECT ->
  result (MESH_OT_PrimitiveBSphereAdd.execute (init c)) = inr FINISHED ->
  OBJECT_OT_ApplyBSphereModifiers.poll
    (context (final (MESH_OT_PrimitiveBSphereAdd.execute (init c)))) = false
  /\ OBJECT_OT_ApplyBSphereModifiers.poll
       (set_mode OBJECT (context (final (MESH_OT_PrimitiveBSphereAdd.execute (init c))))) = true
  /\ attempted (calls (final (OBJECT_OT_ApplyBSphereModifiers.execute v
         (init (set_mode OBJECT
                  (context (final (MESH_OT_PrimitiveBSphereAdd.execute (init c)))))))))
     = ["Mirror"; "Skin"; "Subdivision"].
Proof.
  intros Hobject.
  destruct (creator_cases c Hobject)
    as (r & vtx & o' & -> & Hobjs & -> & _ & Hact & Hres & Hfin & _).
  intros Hr. rewrite Hres in Hr.
  destruct (last (calls (final r)) ≫= ev_raised) eqn:Hlast; [done|].
  destruct Hfin as (Hmode & _); [done|].
  set (o' := {| data := _; modifiers := _ |}) in *.
  assert (Hl : objects (context (final r)) !! length (objects c) = Some o').
  { rewrite Hobjs. apply snoc_lookup. }
  unfold OBJECT_OT_ApplyBSphereModifiers.poll.
  split; [|split].
  - rewrite Hmode. rewrite (bool_decide_eq_false_2 (EDIT_MESH = OBJECT)) by done.
    apply andb_false_r.
  - unfold object. cbn [active objects mode set_mode]. rewrite Hact, Hl.
    rewrite !bool_decide_eq_true_2; eauto.
  - destruct (execute_final_context v (set_mode OBJECT (context (final r)))
                (length (objects c)) o') as (evs & o2 & _ & Hatt & _ & _ & -> & _).
    { done. }
    { done. }
    rewrite Hatt. done.
Qed.

End creator_more.

(** ** Further properties of the panel *)

(** X10: what the panel shows depends on the active object only through its
    being a mesh and through which of the three named stages are present:
    the mode, the viewport, the other objects, the mesh's content and the
    stages' parameters make no difference. *)
Theorem panel_depends_on_stage_presence (c1 c2 : Context) (o1 o2 : Object) :
  object c1 = Some o1 -> object c2 = Some o2 ->
  (type o1 = MESH <-> type o2 = MESH) ->
  (forall n, n ∈ ["Mirror"; "Skin"; "Subdivision"] -> present n o1 = present n o2) ->
  rendered c1 = rendered c2.
Proof.
  intros Hobj1 Hobj2 Hty Hp.
  destruct (draw_run c1) as [_ ->]. destruct (draw_run c2) as [_ ->].
  rewrite Hobj1, Hobj2.
  rewrite (Hp "Mirror"), (Hp "Skin"), (Hp "Subdivision")
    by (apply (bool_decide_unpack _); by vm_compute).
  by rewrite (bool_decide_ext _ _ Hty).
Qed.

(** X11: without an active object, or with an active object that is not a
    mesh, the panel shows the create action and nothing else, whatever
    stages the object carries; and drawing does not raise. *)
Theorem panel_without_mesh_object (c : Context) :
  (forall o, object c = Some o -> type o <> MESH) ->
  result (VIEW3D_PT_BSpheresPanel.draw (init c)) = inr tt
  /\ rendered c = [create_control].
Proof.
  intros Hno. destruct (draw_run c) as [Hres ->]. split; [done|].
  destruct (object c) as [o|]; [|done].
  by rewrite (bool_decide_eq_false_2 _ (Hno o eq_refl)).
Qed.

(** X12: the panel never shows a control twice, the create action always
    comes first, and the Finalize action, when shown, comes last. *)
Theorem panel_controls_are_distinct (c : Context) :
  NoDup (rendered c)
  /\ head (rendered c) = Some create_control
  /\ (finalize_control ∈ rendered c -> last (rendered c) = Some finalize_control).
Proof.
  destruct (draw_run c) as [_ ->].
  assert (Hcases : forall l : list Control,
            bool_decide (NoDup (create_control :: l)) = true ->
            (bool_decide (finalize_control ∈ create_control :: l) = true ->
             last (create_control :: l) = Some finalize_control) ->
            NoDup (create_control :: l)
            /\ head (create_control :: l) = Some create_control
            /\ (finalize_control ∈ create_control :: l ->
                last (create_control :: l) = Some finalize_control)).
  { intros l Hnd Hlast. split; [by apply bool_decide_eq_true in Hnd|]. split; [done|].
    intros Hin. apply Hlast. by apply bool_decide_eq_true. }
  destruct (object c) as [o|]; [|apply Hcases; by vm_compute].
  destruct (bool_decide (type o = MESH)), (present "Skin" o), (present "Mirror" o),
    (present "Subdivision" o); apply Hcases; by vm_compute.
Qed.

(** ** register / unregister *)

Lemma for_each_app {S A} (l1 l2 : list A) (f : A -> M S unit) (s : S) :
  for_each (l1 ++ l2) f s = bind (for_each l1 f) (fun _ => for_each l2 f) s.
Proof.
  revert s. induction l1 as [|x l1 IH]; intros s; simpl.
  - unfold bind, ret. done.
  - unfold bind in *. destruct (f x s) as [[e|[]] s1]; [done|]. apply IH.
Qed.

Lemma for_each_undone {S A} (f g : A -> M S unit) (l : list A) :
  (forall x s s', f x s = (inr tt, s') -> g x s' = (inr tt, s)) ->
  forall s s', for_each l f s = (inr tt, s') -> for_each (reverse l) g s' = (inr tt, s).
Proof.
  intros Hundo. induction l as [|x l IH]; intros s s' Hrun; simpl in *.
  - unfold ret in Hrun. by injection Hrun as ->.
  - unfold bind in Hrun. destruct (f x s) as [[e|[]] s1] eqn:Hf; [done|].
    rewrite reverse_cons, for_each_app. unfold bind.
    rewrite (IH s1 s' Hrun). simpl. unfold bind. by rewrite (Hundo x s s1 Hf).
Qed.

(** X13: [unregister] undoes [register].  On any host where unregistering a
    class undoes its registration, tearing the classes down in the reverse
    of the order they were registered in brings the registry back to the
    state it had before a successful [register], and does not raise. *)
Theorem unregister_undoes_register `{RegistryHost} (r : Registry) :
  (forall cls r0 r1, register_class cls r0 = (inr tt, r1) ->
                     unregister_class cls r1 = (inr tt, r0)) ->
  result (register r) = inr tt ->
  unregister (final (register r)) = (inr tt, r).
Proof.
  intros Hlaw Hres. unfold register, unregister in *.
  apply for_each_undone with (f := register_class); [exact Hlaw|].
  unfold result, final in *. destruct (for_each classes register_class r) as [res s'].
  simpl in *. by subst res.
Qed.

(** On the sample registry, unregistering a class undoes its registration. *)
Lemma list_registry_undo (cls : string) (r0 r1 : list string) :
  @register_class list_registry cls r0 = (inr tt, r1) ->
  @unregister_class list_registry cls r1 = (inr tt, r0).
Proof.
  cbn. destruct (bool_decide (cls ∈ r0)) eqn:Hin; [done|].
  intros [= <-]. apply bool_decide_eq_false in Hin.
  rewrite bool_decide_eq_true_2 by (apply elem_of_app; right; apply list_elem_of_here).
  f_equal. rewrite filter_app, filter_cons_False, filter_nil, app_nil_r by (intros Hne; done).
  clear -Hin. induction r0 as [|x r0 IH]; [done|].
  apply not_elem_of_cons in Hin as [Hne Hin].
  rewrite filter_cons_True by done. by rewrite IH.
Qed.

(** The round trip on a registry that already holds another add-on's class. *)
Lemma unregister_undoes_register_witness :
  (forall cls r0 r1, @register_class list_registry cls r0 = (inr tt, r1) ->
                     @unregister_class list_registry cls r1 = (inr tt, r0))
  /\ result (@register list_registry ["OTHER_OT_operator"]) = inr tt
  /\ @unregister list_registry (final (@register list_registry ["OTHER_OT_operator"]))
     = (inr tt, ["OTHER_OT_operator"]).
Proof.
  split; [exact list_registry_undo|]. split; [reflexivity|].
  apply (@unregister_undoes_register list_registry ["OTHER_OT_operator"]);
    [exact list_registry_undo | reflexivity].
Defined.

(** ** The panel's layout *)

Section panel_layout.
Import VIEW3D_PT_BSpheresPanel.

Lemma lays_seq i o (m1 m2 : M State unit) ws1 ws2 :
  lays i o m1 ws1 -> lays i o m2 ws2 -> lays i o (m1 ;; m2) (layout_seq ws1 ws2).
Proof.
  intros H1 H2 s Hl. destruct (H1 s Hl) as (s1 & Hm1 & Hc1 & Hk1).
  destruct (H2 s1) as (s2 & Hm2 & Hc2 & Hk2); [by rewrite Hc1|].
  exists s2. unfold mbind, M_bind, bind. rewrite Hm1, Hm2.
  repeat split; [congruence|]. unfold layout_seq.
  by rewrite Hk2, Hk1, length_app, app_assoc.
Qed.

Ltac lays_run :=
  munfold; unfold add, operator_setattr, set_scale_y;
  repeat (progress (cbn [context reports calls items set_items fst snd];
                    rewrite ?snoc_lookup, ?snoc_insert));
  eexists; split; [reflexivity|]; split; [reflexivity|];
  unfold set_items, widget; cbn [items context];
  rewrite ?length_app; cbn [length];
  rewrite <- ?Nat.add_assoc; cbn [Nat.add];
  rewrite <- ?app_assoc; cbn [app]; reflexivity.

Lemma draw_create_lays s :
  exists s',
    draw_create s = (inr tt, s')
    /\ context s' = context s
    /\ items s' = items s ++ layout_create (length (items s)).
Proof. unfold draw_create, layout_create. cbv zeta. lays_run. Qed.

Lemma lays_finish i o : lays i o draw_finish layout_finish.
Proof. intros s _. unfold draw_finish, layout_finish. cbv zeta. lays_run. Qed.

Lemma lays_mirror i o box : lays i o (draw_mirror (Some i) box) (layout_mirror o box).
Proof.
  intros s Hl. unfold draw_mirror, layout_mirror, obj_modifiers_get. munfold. rewrite Hl.
  destruct (modifiers_get "Mirror" (modifiers o)) as [md|] eqn:Hg.
  - rewrite (present_Some _ _ _ Hg), (modifiers_get_name _ _ _ Hg). lays_run.
  - rewrite (present_None _ _ Hg). exists s. by rewrite app_nil_r.
Qed.

Lemma lays_subsurf i o box : lays i o (draw_subsurf (Some i) box) (layout_subsurf o box).
Proof.
  intros s Hl. unfold draw_subsurf, layout_subsurf, obj_modifiers_get. munfold. rewrite Hl.
  destruct (modifiers_get "Subdivision" (modifiers o)) as [md|] eqn:Hg.
  - rewrite (present_Some _ _ _ Hg), (modifiers_get_name _ _ _ Hg). lays_run.
  - rewrite (present_None _ _ Hg). exists s. by rewrite app_nil_r.
Qed.

Lemma lays_skin i o box : lays i o (draw_skin (Some i) box) (layout_skin o box).
Proof.
  intros s Hl. unfold draw_skin, layout_skin, obj_modifiers_get. munfold. rewrite Hl.
  destruct (modifiers_get "Skin" (modifiers o)) as [md|] eqn:Hg.
  - rewrite (present_Some _ _ _ Hg). lays_run.
  - rewrite (present_None _ _ Hg). exists s. by rewrite app_nil_r.
Qed.

Lemma lays_tools i o : lays i o (draw_tools (Some i)) (layout_tools o).
Proof.
  intros s Hl. unfold draw_tools. cbv zeta.
  unfold mbind at 1, M_bind at 1, bind at 1, add at 1. cbv beta iota.
  unfold mbind at 1, M_bind at 1, bind at 1, add at 1. cbv beta iota.
  set (s2 := set_items _ (set_items _ s)).
  destruct (lays_seq i o _ _ _ _ (lays_mirror i o (item_at (length (items s))))
              (lays_seq i o _ _ _ _ (lays_subsurf i o (item_at (length (items s))))
                 (lays_seq i o _ _ _ _ (lays_skin i o (item_at (length (items s))))
                    (lays_finish i o))) s2 Hl)
    as (s' & Hrun & Hc & Hk).
  exists s'. rewrite Hrun. repeat split; [done|].
  rewrite Hk. subst s2. unfold layout_tools, widget. cbn [items set_items].
  rewrite !length_app. cbn [length]. rewrite <- !Nat.add_assoc. cbn [Nat.add].
  rewrite <- !app_assoc. done.
Qed.

(** The layout drawn from an empty one, item by item. *)
Lemma draw_layout c : items (final (draw (init c))) = layout_of (object c).
Proof.
  destruct (draw_create_lays (init c)) as (s1 & Hrun1 & Hc1 & Hk1).
  cbn [init items context length app] in Hc1, Hk1.
  unfold draw, context_object. unfold mbind, M_bind, bind, gets. cbn [context init].
  rewrite Hrun1, <- Hc1. unfold layout_of.
  destruct (object (context s1)) as [o|] eqn:Hobj.
  - apply object_inv in Hobj as (i & Ha & Hl). rewrite Ha.
    unfold obj_type. rewrite Hl.
    destruct (bool_decide (type o = MESH)); cbn [andb];
      [|unfold final, mret, M_ret, ret; cbn [snd]; by rewrite Hk1, app_nil_r].
    rewrite (has_bsphere_setup_run i o s1 Hl).
    destruct (present "Skin" o || present "Mirror" o);
      [|unfold final, mret, M_ret, ret; cbn [snd]; by rewrite Hk1, app_nil_r].
    destruct (lays_tools i o s1 Hl) as (s2 & Hrun2 & _ & Hk2).
    rewrite Hrun2. unfold final. cbn [snd]. rewrite Hk2, Hk1. done.
  - unfold final, mret, M_ret, ret. cbn [snd]. by rewrite Hk1, app_nil_r.
Qed.

Lemma well_placed_from_spec l k rest :
  well_placed_from l k rest = true ->
  forall j w, rest !! j = Some w -> well_placed l (k + j) w = true.
Proof.
  revert k. induction rest as [|w0 rest IH]; intros k Hwf j w Hj; [done|].
  simpl in Hwf. apply andb_true_iff in Hwf as [Hw0 Hrest].
  destruct j as [|j]; simpl in Hj.
  - injection Hj as ->. by rewrite Nat.add_0_r.
  - rewrite <- Nat.add_succ_comm. by apply IH.
Qed.

(** X14: the layout the panel draws is a tree.  Every item is placed under
    the root layout or under a column, row or box that was added before it:
    no handle is used before it exists and nothing is placed under a label,
    a button or a separator. *)
Theorem panel_layout_is_a_tree (c : Context) (k : nat) (w : Widget) :
  items (final (draw (init c))) !! k = Some w ->
  match parent w with
  | self_layout => True
  | item_at j =>
      j < k /\ exists p, items (final (draw (init c))) !! j = Some p
                        /\ is_container (item p) = true
  end.
Proof.
  rewrite draw_layout. intros Hk.
  assert (Hwf : well_formed (layout_of (object c)) = true).
  { unfold layout_of, layout_tools, layout_seq, layout_mirror, layout_subsurf, layout_skin.
    destruct (object c) as [o|]; [|by vm_compute].
    destruct (bool_decide (type o = MESH)), (present "Skin" o), (present "Mirror" o),
      (present "Subdivision" o); by vm_compute. }
  pose proof (well_placed_from_spec _ 0 _ Hwf k w Hk) as Hw. cbn [Nat.add] in Hw.
  unfold well_placed in Hw. destruct (parent w) as [|j]; [done|].
  apply andb_true_iff in Hw as [Hlt Hc]. apply Nat.ltb_lt in Hlt. split; [done|].
  destruct (layout_of (object c) !! j) as [p|]; [eauto | done].
Qed.

End panel_layout.

(** ** The further properties at sample inputs *)

(** A scene of two objects, on a host where baking "Skin" fails. *)
Lemma finalizer_keeps_scene_layout_witness :
  active two_object_context = Some 1%nat
  /\ objects two_object_context !! 1%nat = Some bsphere_object
  /\ active (context (final (OBJECT_OT_ApplyBSphereModifiers.execute (H := skin_fails_host)
                             0.05 (init two_object_context)))) = Some 1%nat
  /\ mode (context (final (OBJECT_OT_ApplyBSphereModifiers.execute (H := skin_fails_host)
                           0.05 (init two_object_context)))) = mode two_object_context
  /\ length (objects (context (final (OBJECT_OT_ApplyBSphereModifiers.execute (H := skin_fails_host)
                                      0.05 (init two_object_context)))))
     = length (objects two_object_context)
  /\ (forall j, j <> 1%nat ->
        modifiers <$> objects (context (final (OBJECT_OT_ApplyBSphereModifiers.execute (H := skin_fails_host)
                                                0.05 (init two_object_context)))) !! j
        = modifiers <$> objects two_object_context !! j)
  /\ (forall j, j <> 1%nat ->
        type <$> objects (context (final (OBJECT_OT_ApplyBSphereModifiers.execute (H := skin_fails_host)
                                           0.05 (init two_object_context)))) !! j
        = type <$> objects two_object_context !! j)
  /\ space_data (context (final (OBJECT_OT_ApplyBSphereModifiers.execute (H := skin_fails_host)
                                 0.05 (init two_object_context))))
     = match space_data two_object_context with
       | SpaceView3D _ => SpaceView3D false
       | sp => sp
       end.
Proof.
  do 2 (split; [reflexivity|]).
  apply (@finalizer_keeps_scene_layout skin_fails_host 0.05 two_object_context
           1%nat bsphere_object); reflexivity.
Defined.

(** An object with two stages of other names around the three named ones. *)
Lemma finalizer_keeps_other_stages_witness :
  object decorated_context = Some decorated_object
  /\ exists o',
       object (context (final (OBJECT_OT_ApplyBSphereModifiers.execute (H := quiet_host)
                                 0.05 (init decorated_context)))) = Some o'
       /\ modifiers o' `sublist_of` modifiers decorated_object
       /\ filter (fun md => name md ∉ OBJECT_OT_ApplyBSphereModifiers.modifiers_to_apply)
            (modifiers o')
          = filter (fun md => name md ∉ OBJECT_OT_ApplyBSphereModifiers.modifiers_to_apply)
              (modifiers decorated_object).
Proof.
  split; [reflexivity|].
  apply (@finalizer_keeps_other_stages quiet_host 0.05 decorated_context decorated_object).
  reflexivity.
Defined.

(** A run with one failed bake and a successful remesh. *)
Lemma finalizer_reports_every_outcome_witness :
  object bsphere_context = Some bsphere_object
  /\ is_Some (mesh_of bsphere_object)
  /\ exists evs e,
       calls (final (OBJECT_OT_ApplyBSphereModifiers.execute (H := skin_fails_host)
                       0.05 (init bsphere_context))) = evs ++ [e]
       /\ Forall (fun e => is_Some (applied e)) evs
       /\ ev_call e = voxel_remesh
       /\ reports (final (OBJECT_OT_ApplyBSphereModifiers.execute (H := skin_fails_host)
                            0.05 (init bsphere_context)))
          = map warning (failed evs)
            ++ [match ev_raised e with
                | Some msg => (ERROR, "Remesh failed: " +:+ msg)
                | None => (INFO, "bSphere mesh applied and remeshed.")
                end].
Proof.
  assert (Hm : is_Some (mesh_of bsphere_object)) by (eexists; reflexivity).
  split; [reflexivity|]. split; [exact Hm|].
  apply (@finalizer_reports_every_outcome skin_fails_host 0.05 bsphere_context bsphere_object);
    [reflexivity | exact Hm].
Defined.

Lemma plain_mesh_has_no_named_stage (n : string) :
  n ∈ OBJECT_OT_ApplyBSphereModifiers.modifiers_to_apply -> present n plain_mesh_object = false.
Proof. intros _. reflexivity. Qed.

(** A mesh without stages, on a host that reports no failure. *)
Lemma finalizer_on_plain_mesh_witness :
  object plain_mesh_context = Some plain_mesh_object
  /\ mesh_of plain_mesh_object = Some single_point_mesh
  /\ (forall n, n ∈ OBJECT_OT_ApplyBSphereModifiers.modifiers_to_apply ->
                present n plain_mesh_object = false)
  /\ exists e o',
       result (OBJECT_OT_ApplyBSphereModifiers.execute (H := quiet_host)
                 0.05 (init plain_mesh_context)) = inr FINISHED
       /\ calls (final (OBJECT_OT_ApplyBSphereModifiers.execute (H := quiet_host)
                          0.05 (init plain_mesh_context))) = [e]
       /\ ev_call e = voxel_remesh
       /\ ev_object e
          = Some (set_data (Some (MeshID (set_remesh_voxel_size 0.05 single_point_mesh)))
                    plain_mesh_object)
       /\ warnings (reports (final (OBJECT_OT_ApplyBSphereModifiers.execute (H := quiet_host)
                                      0.05 (init plain_mesh_context)))) = []
       /\ object (context (final (OBJECT_OT_ApplyBSphereModifiers.execute (H := quiet_host)
                                    0.05 (init plain_mesh_context)))) = Some o'
       /\ modifiers o' = modifiers plain_mesh_object.
Proof.
  do 2 (split; [reflexivity|]). split; [exact plain_mesh_has_no_named_stage|].
  apply (@finalizer_on_plain_mesh quiet_host 0.05 plain_mesh_context plain_mesh_object
           single_point_mesh); [reflexivity | reflexivity | exact plain_mesh_has_no_named_stage].
Defined.

(** Two runs on a host where baking "Skin" fails: the second retries "Skin". *)
Lemma finalizer_rerun_retries_failed_witness :
  object bsphere_context = Some bsphere_object
  /\ NoDup (map name (modifiers bsphere_object))
  /\ ("Skin" ∈ attempted (calls (final (OBJECT_OT_ApplyBSphereModifiers.execute
                                          (H := skin_fails_host) 0.1
                                          (init (context (final
                                             (OBJECT_OT_ApplyBSphereModifiers.execute
                                                (H := skin_fails_host) 0.05
                                                (init bsphere_context))))))))
      <-> "Skin" ∈ failed (calls (final (OBJECT_OT_ApplyBSphereModifiers.execute
                                          (H := skin_fails_host) 0.05
                                          (init bsphere_context))))).
Proof.
  assert (Hnd : NoDup (map name (modifiers bsphere_object))).
  { apply (bool_decide_unpack _). vm_compute. reflexivity. }
  split; [reflexivity|]. split; [exact Hnd|].
  apply (@finalizer_rerun_retries_failed skin_fails_host 0.05 0.1 bsphere_context
           bsphere_object "Skin"); [reflexivity | exact Hnd].
Defined.

(** The creator on an empty scene, on a host that reports no failure. *)
Lemma creator_completion_witness :
  result (MESH_OT_PrimitiveBSphereAdd.execute (H := quiet_host) (init no_object_context))
  = inr FINISHED
  /\ map ev_call (calls (final (MESH_OT_PrimitiveBSphereAdd.execute (H := quiet_host)
                                  (init no_object_context))))
     = [mode_set_EDIT; select_all_SELECT; skin_root_mark]
  /\ Forall (fun e => ev_raised e = None)
       (calls (final (MESH_OT_PrimitiveBSphereAdd.execute (H := quiet_host)
                        (init no_object_context))))
  /\ space_data (context (final (MESH_OT_PrimitiveBSphereAdd.execute (H := quiet_host)
                                   (init no_object_context))))
     = match space_data no_object_context with
       | SpaceView3D _ => SpaceView3D true
       | sp => sp
       end.
Proof.
  split; [reflexivity|].
  apply (@creator_completion quiet_host no_object_context). reflexivity.
Defined.

(** The creator, then the finalizer once back in object-level mode. *)
Lemma finalizer_after_creator_witness :
  mode no_object_context = OBJECT
  /\ result (MESH_OT_PrimitiveBSphereAdd.execute (H := quiet_host) (init no_object_context))
     = inr FINISHED
  /\ OBJECT_OT_ApplyBSphereModifiers.poll
       (context (final (MESH_OT_PrimitiveBSphereAdd.execute (H := quiet_host)
                          (init no_object_context)))) = false
  /\ OBJECT_OT_ApplyBSphereModifiers.poll
       (set_mode OBJECT
          (context (final (MESH_OT_PrimitiveBSphereAdd.execute (H := quiet_host)
                             (init no_object_context))))) = true
  /\ attempted (calls (final (OBJECT_OT_ApplyBSphereModifiers.execute (H := quiet_host) 0.05
         (init (set_mode OBJECT
                  (context (final (MESH_OT_PrimitiveBSphereAdd.execute (H := quiet_host)
                                     (init no_object_context)))))))))
     = ["Mirror"; "Skin"; "Subdivision"].
Proof.
  do 2 (split; [reflexivity|]).
  apply (@finalizer_after_creator quiet_host no_object_context 0.05); reflexivity.
Defined.

(** The panel after a creator run that failed to enter edit mode. *)
Lemma panel_after_creator_witness :
  mode two_object_context = OBJECT
  /\ rendered (context (final (MESH_OT_PrimitiveBSphereAdd.execute (H := edit_mode_fails_host)
                                 (init two_object_context))))
     = create_control :: mirror_controls ++ subdivision_controls ++ skin_controls
         ++ [finalize_control].
Proof.
  split; [reflexivity|].
  apply (@panel_after_creator edit_mode_fails_host two_object_context). reflexivity.
Defined.

Lemma decorated_object_has_named_stages (n : string) :
  n ∈ ["Mirror"; "Skin"; "Subdivision"] ->
  present n bsphere_object = present n decorated_object.
Proof.
  intros Hn. repeat (apply elem_of_cons in Hn as [->|Hn]); [reflexivity..|].
  by apply elem_of_nil in Hn.
Qed.

(** Two different mesh objects carrying the three named stages. *)
Lemma panel_depends_on_stage_presence_witness :
  object bsphere_edit_context = Some bsphere_object
  /\ object decorated_context = Some decorated_object
  /\ (type bsphere_object = MESH <-> type decorated_object = MESH)
  /\ (forall n, n ∈ ["Mirror"; "Skin"; "Subdivision"] ->
                present n bsphere_object = present n decorated_object)
  /\ rendered bsphere_edit_context = rendered decorated_context.
Proof.
  assert (Hty : type bsphere_object = MESH <-> type decorated_object = MESH)
    by (split; reflexivity).
  do 2 (split; [reflexivity|]). split; [exact Hty|].
  split; [exact decorated_object_has_named_stages|].
  apply (panel_depends_on_stage_presence bsphere_edit_context decorated_context
           bsphere_object decorated_object);
    [reflexivity | reflexivity | exact Hty | exact decorated_object_has_named_stages].
Defined.

Lemma empty_object_is_no_mesh (o : Object) :
  object empty_object_context = Some o -> type o <> MESH.
Proof. intros [= <-]. discriminate. Qed.

(** An empty as the active object. *)
Lemma panel_without_mesh_object_witness :
  (forall o, object empty_object_context = Some o -> type o <> MESH)
  /\ result (VIEW3D_PT_BSpheresPanel.draw (init empty_object_context)) = inr tt
  /\ rendered empty_object_context = [create_control].
Proof.
  split; [exact empty_object_is_no_mesh|].
  apply (panel_without_mesh_object empty_object_context). exact empty_object_is_no_mesh.
Defined.

(** The X toggle of the Mirror stage sits in the row added two items before. *)
Lemma panel_layout_is_a_tree_witness :
  items (final (VIEW3D_PT_BSpheresPanel.draw (init bsphere_context))) !! 8%nat
  = Some (widget (item_at 6) (Property "Mirror" "use_axis" (Some 0%nat) "X" true))
  /\ 6 < 8
  /\ exists p, items (final (VIEW3D_PT_BSpheresPanel.draw (init bsphere_context))) !! 6%nat
               = Some p
               /\ is_container (item p) = true.
Proof.
  split; [reflexivity|].
  apply (panel_layout_is_a_tree bsphere_context 8%nat
           (widget (item_at 6) (Property "Mirror" "use_axis" (Some 0%nat) "X" true))).
  reflexivity.
Defined.

(** A camera as the active object: no mesh data, no [FINISHED]. *)
Lemma finalizer_finishes_iff_mesh_witness :
  object (set_objects [{| data := Some CameraID; modifiers := [] |}] bsphere_context)
  = Some {| data := Some CameraID; modifiers := [] |}
  /\ (result (OBJECT_OT_ApplyBSphereModifiers.execute (H := quiet_host) 0.05
                (init (set_objects [{| data := Some CameraID; modifiers := [] |}]
                         bsphere_context))) = inr FINISHED
      <-> is_Some (mesh_of {| data := Some CameraID; modifiers := [] |})).
Proof.
  split; [reflexivity|].
  apply (@finalizer_finishes_iff_mesh quiet_host 0.05
           (set_objects [{| data := Some CameraID; modifiers := [] |}] bsphere_context)
           {| data := Some CameraID; modifiers := [] |}).
  reflexivity.
Defined.

(** ** The panel's Finalize action and the finalizer *)

Lemma mesh_typed_has_mesh (o : Object) : type o = MESH -> is_Some (mesh_of o).
Proof. unfold type, mesh_of. destruct (data o) as [[]|]; try done. Qed.

(** X16: the Finalize action the panel offers never lets an exception out.
    In every context in object-level mode in which the panel shows the
    Finalize action, the finalizer is enabled and returns [FINISHED],
    whatever the host reports for the bakes and for the remesh. *)
Theorem offered_finalize_finishes `{Host} (v : Q) (c : Context) :
  finalize_control ∈ rendered c -> mode c = OBJECT ->
  OBJECT_OT_ApplyBSphereModifiers.poll c = true
  /\ result (OBJECT_OT_ApplyBSphereModifiers.execute v (init c)) = inr FINISHED.
Proof.
  intros Hin Hmode. destruct (draw_run c) as [_ Hr]. rewrite Hr in Hin.
  assert (Hno : finalize_control ∉ [create_control]).
  { intros Hbad. apply (bool_decide_pack _) in Hbad. by vm_compute in Hbad. }
  destruct (object c) as [o|] eqn:Hobj; [|done].
  destruct (bool_decide (type o = MESH)) eqn:Hty; [|done].
  apply bool_decide_eq_true in Hty. split.
  - unfold OBJECT_OT_ApplyBSphereModifiers.poll. rewrite Hobj, Hmode.
    rewrite !bool_decide_eq_true_2; eauto.
  - apply finalizer_finishes_on_mesh with o; [done | by apply mesh_typed_has_mesh].
Qed.

Lemma bsphere_context_offers_finalize : finalize_control ∈ rendered bsphere_context.
Proof. apply (bool_decide_unpack _). vm_compute. reflexivity. Qed.

(** The offered action on a host whose voxel remesh fails. *)
Lemma offered_finalize_finishes_witness :
  finalize_control ∈ rendered bsphere_context
  /\ mode bsphere_context = OBJECT
  /\ OBJECT_OT_ApplyBSphereModifiers.poll bsphere_context = true
  /\ result (OBJECT_OT_ApplyBSphereModifiers.execute (H := remesh_fails_host) 0.05
               (init bsphere_context)) = inr FINISHED.
Proof.
  split; [exact bsphere_context_offers_finalize|]. split; [reflexivity|].
  apply (@offered_finalize_finishes remesh_fails_host 0.05 bsphere_context);
    [exact bsphere_context_offers_finalize | reflexivity].
Defined.
